(** * MagicQuadrant: the quadrant store, the chart layout and the callback

    A shallow embedding of [main.py].  The three module-level globals
    ([companies], [logo_urls], [logos]) become one [store] record that is
    threaded through a small state-and-exception monad; Python's
    insertion-ordered [dict] becomes an association list whose operations
    keep the position of an existing key and append a new one. *)

From Stdlib Require Import String Ascii List ZArith Bool Arith Lia.
Import ListNotations.

Local Open Scope string_scope.
Local Open Scope list_scope.
Local Open Scope Z_scope.

Set Implicit Arguments.

(* ------------------------------------------------------------------ *)
(** ** Python dictionaries with string keys, in insertion order *)

Definition pydict (V : Type) : Type := list (string * V).

Section PyDict.
Context {V : Type}.

(** [d.get(k)] / the lookup part of [d[k]]: [None] is a missing key. *)
Fixpoint pyget (k : string) (d : pydict V) : option V :=
  match d with
  | [] => None
  | (k', v) :: rest => if String.eqb k k' then Some v else pyget k rest
  end.

(** [k in d] *)
Definition pycontains (k : string) (d : pydict V) : bool :=
  match pyget k d with Some _ => true | None => false end.

(** [d[k] = v]: an existing key keeps its place, a new key goes last. *)
Fixpoint pyset (k : string) (v : V) (d : pydict V) : pydict V :=
  match d with
  | [] => [(k, v)]
  | (k', v') :: rest =>
      if String.eqb k k' then (k', v) :: rest else (k', v') :: pyset k v rest
  end.

(** [del d[k]]: [None] is the [KeyError] of a missing key. *)
Fixpoint pydel (k : string) (d : pydict V) : option (pydict V) :=
  match d with
  | [] => None
  | (k', v') :: rest =>
      if String.eqb k k' then Some rest
      else match pydel k rest with
           | Some rest' => Some ((k', v') :: rest')
           | None => None
           end
  end.

(** [d.keys()] *)
Definition pykeys (d : pydict V) : list string := map fst d.
End PyDict.

(* ------------------------------------------------------------------ *)
(** ** Strings: truthiness, [in], [split('.')[0]] *)

(** Truth value of a [str]. *)
Definition truthy (s : string) : bool := negb (String.eqb s "").

(** Truth value of a value that is [None] or a list. *)
Definition truthy_list {A : Type} (o : option (list A)) : bool :=
  match o with
  | Some (_ :: _) => true
  | _ => false
  end.

(** [sub in s] on strings: [sub] occurs somewhere in [s]. *)
Fixpoint str_in (sub s : string) : bool :=
  if String.prefix sub s then true
  else match s with
       | EmptyString => false
       | String _ rest => str_in sub rest
       end.

(** [s.split('.')[0]]: what precedes the first dot. *)
Fixpoint before_dot (s : string) : string :=
  match s with
  | EmptyString => EmptyString
  | String c rest =>
      if Ascii.eqb c "."%char then EmptyString else String c (before_dot rest)
  end.

(* ------------------------------------------------------------------ *)
(** ** The globals *)

(** The value stored per company: [{"dual_use": bool}]. *)
Record details : Type := { dual_use : bool }.

Record store : Type := {
  companies : pydict (pydict details);   (* quadrant -> company -> details *)
  logo_urls : pydict string;
  logos     : pydict (option string)     (* None: the fetch failed *)
}.

Definition empty_companies : pydict (pydict details) :=
  [ ("Visionaries/Innovators", []);
    ("Leaders", []);
    ("Niche Players", []);
    ("Challengers", []) ].

(** The state at import time, and again after a reset. *)
Definition initial_store : store :=
  {| companies := empty_companies; logo_urls := []; logos := [] |}.

Definition with_companies (cs : pydict (pydict details)) (st : store) : store :=
  {| companies := cs; logo_urls := logo_urls st; logos := logos st |}.

Definition with_logo_urls (us : pydict string) (st : store) : store :=
  {| companies := companies st; logo_urls := us; logos := logos st |}.

Definition with_logos (lg : pydict (option string)) (st : store) : store :=
  {| companies := companies st; logo_urls := logo_urls st; logos := lg |}.

(* ------------------------------------------------------------------ *)
(** ** State and exceptions

    A computation takes the globals and gives them back, possibly changed,
    with a value or a raised exception.  What was assigned before an
    exception stays assigned. *)

Inductive exn : Type :=
| KeyError (key : string)
| EvalError.

Inductive result (A : Type) : Type :=
| Ok (a : A)
| Raise (e : exn).

Arguments Ok {A} a.
Arguments Raise {A} e.

Definition M (A : Type) : Type := store -> store * result A.

Definition ret {A : Type} (a : A) : M A := fun st => (st, Ok a).

Definition raise {A : Type} (e : exn) : M A := fun st => (st, Raise e).

Definition bind {A B : Type} (c : M A) (k : A -> M B) : M B :=
  fun st =>
    match c st with
    | (st', Ok a) => k a st'
    | (st', Raise e) => (st', Raise e)
    end.

Definition gets {A : Type} (f : store -> A) : M A := fun st => (st, Ok (f st)).

Definition modify (f : store -> store) : M unit := fun st => (f st, Ok tt).

(** [try: c  except Exception as e: print(...)] *)
Definition try_except (c : M unit) : M unit :=
  fun st => (fst (c st), Ok tt).

(** [if b: c] *)
Definition when (b : bool) (c : M unit) : M unit :=
  if b then c else ret tt.

Declare Scope mq_scope.
Delimit Scope mq_scope with mq.
Notation "x <- c ;; k" := (bind c (fun x => k))
  (at level 61, c at next level, right associativity) : mq_scope.
Notation "c ;; k" := (bind c (fun _ => k))
  (at level 61, right associativity) : mq_scope.
Local Open Scope mq_scope.

(** The globals left by a computation, and what it returned. *)
Definition exec {A : Type} (c : M A) (st : store) : store := fst (c st).
Definition returned {A : Type} (c : M A) (st : store) : result A := snd (c st).

(* ------------------------------------------------------------------ *)
(** ** What the callback receives and what it returns *)

(** The arguments of [update_output], the [prop_id] of
    [ctx.triggered[0]], and the answer of the network during the request:
    [in_http_png url] is the base64 text of the downloaded, resized PNG, or
    [None] when any step of the download raises. *)
Record request : Type := {
  in_title           : string;
  in_n_add_clicks    : Z;
  in_dual_use_filter : option (list string);
  in_n_reset_clicks  : Z;
  in_n_delete_clicks : list Z;
  in_company_name    : option string;
  in_quadrant        : option string;
  in_dual_use        : option (list string);
  in_logo_url        : option string;
  in_triggered_id    : string;
  in_http_png        : string -> option string
}.

(** One [fig.add_layout_image(...)]; [xref], [yref] and the two anchors are
    the same constants for every image. *)
Record layout_image : Type := {
  source : string;
  img_x  : Z;
  img_y  : Z;
  sizex  : Z;
  sizey  : Z
}.

Record annotation : Type := { ann_x : Z; ann_y : Z; ann_text : string }.

Record line_shape : Type := { x0 : Z; y0 : Z; x1 : Z; y1 : Z }.

Record figure : Type := {
  images      : list layout_image;
  annotations : list annotation;
  shapes      : list line_shape;
  xaxis_range : Z * Z;
  yaxis_range : Z * Z
}.

(** One [html.Li] of the company list: the image source, the name shown and
    the ['index'] of the delete button's id. *)
Record roster_item : Type := {
  item_img   : option string;
  item_name  : string;
  item_index : string
}.

(** One row handed to [pd.DataFrame]. *)
Record csv_row : Type := {
  Company  : string;
  Quadrant : string;
  Dual_Use : bool
}.

Record payload : Type := {
  out_title        : string;
  out_figure       : figure;
  out_company_list : list (string * list roster_item);
  out_href         : string
}.

(* ------------------------------------------------------------------ *)
(** ** [fetch_logo] *)

(** Every failure inside the [try] ends in [return None]. *)
Definition fetch_logo (http_png : string -> option string)
    (company_name url : string) : option string :=
  match http_png url with
  | Some encoded_logo => Some (String.append "data:image/png;base64," encoded_logo)
  | None => None
  end.

(* ------------------------------------------------------------------ *)
(** ** [update_chart] *)

Definition positions : pydict (Z * Z) :=
  [ ("Leaders", (75, 75));
    ("Challengers", (75, 25));
    ("Visionaries/Innovators", (25, 75));
    ("Niche Players", (25, 25)) ].

(** The dictionary comprehension of the filter, or [companies] itself. *)
Definition filtered_companies (dual_use_filter : bool)
    (cs : pydict (pydict details)) : pydict (pydict details) :=
  if dual_use_filter
  then map (fun qd : string * pydict details =>
              (fst qd, filter (fun cd : string * details => dual_use (snd cd)) (snd qd)))
           cs
  else cs.

(** [logos.get(company)]: a missing key and a stored [None] are both [None]. *)
Definition logos_get (company : string) (lg : pydict (option string)) : option string :=
  match pyget company lg with
  | Some logo => logo
  | None => None
  end.

(** [if logo:] *)
Definition logo_present (logo : option string) : bool :=
  match logo with
  | Some src => truthy src
  | None => false
  end.

(** The cell of index [i] in the grid hanging from the anchor [(x, y)]. *)
Definition grid_x (x : Z) (i : nat) : Z := x + (Z.of_nat i mod 3) * 10.
Definition grid_y (y : Z) (i : nat) : Z := y - (Z.of_nat i / 3) * 10.

(** The inner loop, [for i, (company, details) in enumerate(...)], from the
    index [i] on. *)
Fixpoint place_logos (x y : Z) (lg : pydict (option string)) (i : nat)
    (items : pydict details) : list layout_image :=
  match items with
  | [] => []
  | (company, _) :: rest =>
      let later := place_logos x y lg (S i) rest in
      match logos_get company lg with
      | Some logo =>
          if truthy logo
          then {| source := logo; img_x := grid_x x i; img_y := grid_y y i;
                  sizex := 10; sizey := 10 |} :: later
          else later
      | None => later
      end
  end.

(** The outer loop; [positions[quadrant]] raises for an unknown quadrant. *)
Fixpoint add_logos (lg : pydict (option string))
    (quadrants : pydict (pydict details)) : result (list layout_image) :=
  match quadrants with
  | [] => Ok []
  | (quadrant, company_dict) :: rest =>
      match pyget quadrant positions with
      | None => Raise (KeyError quadrant)
      | Some (x, y) =>
          match add_logos lg rest with
          | Ok later => Ok (place_logos x y lg 0 company_dict ++ later)
          | Raise e => Raise e
          end
      end
  end.

Definition quadrant_labels : list annotation :=
  [ {| ann_x := 25; ann_y := 100; ann_text := "<b>Visionaries/Innovators</b>" |};
    {| ann_x := 75; ann_y := 100; ann_text := "<b>Leaders</b>" |};
    {| ann_x := 25; ann_y := 0;   ann_text := "<b>Niche Players</b>" |};
    {| ann_x := 75; ann_y := 0;   ann_text := "<b>Challengers</b>" |} ].

Definition quadrant_lines : list line_shape :=
  [ {| x0 := 50; y0 := 0;  x1 := 50;  y1 := 100 |};
    {| x0 := 0;  y0 := 50; x1 := 100; y1 := 50 |} ].

(** [fig.update_layout(images=[], ...)] comes after the images were added:
    plotly merges an array-valued property into the array already there, and
    an empty update leaves the images as they are. *)
Definition update_chart (dual_use_filter : bool) : M figure :=
  cs <- gets companies ;;
  lg <- gets logos ;;
  match add_logos lg (filtered_companies dual_use_filter cs) with
  | Raise e => raise e
  | Ok imgs =>
      ret {| images := imgs;
             annotations := quadrant_labels;
             shapes := quadrant_lines;
             xaxis_range := (0, 100);
             yaxis_range := (0, 100) |}
  end.

(* ------------------------------------------------------------------ *)
(** ** [generate_company_list] and [generate_csv] *)

Definition company_items (lg : pydict (option string))
    (company_dict : pydict details) : list roster_item :=
  map (fun company =>
         {| item_img := logos_get company lg;
            item_name := company;
            item_index := company |})
      (pykeys company_dict).

Definition generate_company_list : M (list (string * list roster_item)) :=
  cs <- gets companies ;;
  lg <- gets logos ;;
  ret (map (fun qd : string * pydict details =>
              (fst qd, company_items lg (snd qd))) cs).

(** The list [data] built by the two nested loops. *)
Definition csv_data (cs : pydict (pydict details)) : list csv_row :=
  flat_map (fun qd : string * pydict details =>
              map (fun cd : string * details =>
                     {| Company := fst cd;
                        Quadrant := fst qd;
                        Dual_Use := dual_use (snd cd) |})
                  (snd qd))
           cs.

Section Callback.

(** [to_csv_b64 data] is the base64 text of
    [pd.DataFrame(data).to_csv(index=False)]. *)
Variable to_csv_b64 : list csv_row -> string.

(** [py_eval_index src] is the value of [eval(src)['index']] when that is
    a string the dictionaries can be asked for, and [None] when the
    evaluation or the subscript raises.  The text evaluated is the
    serialised id of a delete button, a dictionary literal. *)
Variable py_eval_index : string -> option string.

Definition generate_csv : M string :=
  cs <- gets companies ;;
  ret (String.append "data:text/csv;base64," (to_csv_b64 (csv_data cs))).

(* ---------------------------------------------------------------- *)
(** ** [update_output] *)

(** The body of [if 'add-company-button' in triggered_id:]. *)
Definition handle_add (r : request) : M unit :=
  match in_company_name r, in_quadrant r, in_logo_url r with
  | Some company_name, Some quadrant, Some logo_url =>
      when (truthy company_name && truthy quadrant && truthy logo_url)
        (cs <- gets companies ;;
         match pyget quadrant cs with
         | None => raise (KeyError quadrant)
         | Some company_dict =>
             let entry := {| dual_use := truthy_list (in_dual_use r) |} in
             modify (with_companies
                       (pyset quadrant (pyset company_name entry company_dict) cs)) ;;
             us <- gets logo_urls ;;
             modify (with_logo_urls (pyset company_name logo_url us)) ;;
             lg <- gets logos ;;
             modify (with_logos
                       (pyset company_name
                          (fetch_logo (in_http_png r) company_name logo_url) lg))
         end)
  | _, _, _ => ret tt
  end.

(** The [for] loop of the deletion: the first quadrant that holds the
    company loses it, then [break]; [None] when no quadrant holds it. *)
Fixpoint delete_company (company_to_delete : string)
    (cs : pydict (pydict details)) : option (pydict (pydict details)) :=
  match cs with
  | [] => None
  | (quadrant, company_dict) :: rest =>
      match pydel company_to_delete company_dict with
      | Some company_dict' => Some ((quadrant, company_dict') :: rest)
      | None =>
          match delete_company company_to_delete rest with
          | Some rest' => Some ((quadrant, company_dict) :: rest')
          | None => None
          end
      end
  end.

(** The body of [if 'delete-button' in triggered_id:]. *)
Definition handle_delete (triggered_id : string) : M unit :=
  try_except
    match py_eval_index (before_dot triggered_id) with
    | None => raise EvalError
    | Some company_to_delete =>
        cs <- gets companies ;;
        match delete_company company_to_delete cs with
        | None => ret tt
        | Some cs' =>
            modify (with_companies cs') ;;
            lg <- gets logos ;;
            match pydel company_to_delete lg with
            | None => raise (KeyError company_to_delete)
            | Some lg' => modify (with_logos lg')
            end
        end
    end.

(** [dual_use_filter and 'dual_use' in dual_use_filter], as the truth
    value [update_chart] tests. *)
Definition filter_value (dual_use_filter : option (list string)) : bool :=
  truthy_list dual_use_filter &&
  match dual_use_filter with
  | Some l => existsb (String.eqb "dual_use") l
  | None => false
  end.

(** The body of [if 'reset-graph-button' in triggered_id:]. *)
Definition handle_reset : M unit := modify (fun _ => initial_store).

(** [update_output] up to its [return]: the three handlers in the order
    of the source; the value is [dual_use_filter_value]. *)
Definition apply_action (r : request) : M bool :=
  let triggered_id := in_triggered_id r in
  when (str_in "add-company-button" triggered_id) (handle_add r) ;;
  when (str_in "delete-button" triggered_id) (handle_delete triggered_id) ;;
  let dual_use_filter_value := filter_value (in_dual_use_filter r) in
  if str_in "reset-graph-button" triggered_id
  then handle_reset ;; ret false
  else ret dual_use_filter_value.

Definition update_output (r : request) : M payload :=
  let title_output := in_title r in
  dual_use_filter_value <- apply_action r ;;
  fig <- update_chart dual_use_filter_value ;;
  company_list <- generate_company_list ;;
  href <- generate_csv ;;
  ret {| out_title := title_output;
         out_figure := fig;
         out_company_list := company_list;
         out_href := href |}.

(** The globals after a sequence of requests. *)
Fixpoint run (rs : list request) (st : store) : store :=
  match rs with
  | [] => st
  | r :: rest => run rest (exec (update_output r) st)
  end.

Inductive reachable : store -> Prop :=
| reachable_initial : reachable initial_store
| reachable_request st r :
    reachable st -> reachable (exec (update_output r) st).

End Callback.

(* ------------------------------------------------------------------ *)
(** ** Measures and predicates the properties are stated with *)

(** The point of the plane an image is centred on. *)
Definition cell_of (im : layout_image) : Z * Z := (img_x im, img_y im).

(** [sum(len(d) for d in companies.values())] *)
Definition total_entities (cs : pydict (pydict details)) : nat :=
  fold_right (fun (qd : string * pydict details) n => (length (snd qd) + n)%nat) 0%nat cs.

(** A name is held by at most one quadrant. *)
Definition unique_quadrant (cs : pydict (pydict details)) : Prop :=
  forall name q1 q2 d1 d2,
    pyget q1 cs = Some d1 -> pyget q2 cs = Some d2 ->
    pycontains name d1 = true -> pycontains name d2 = true ->
    q1 = q2.

(** No quadrant lists a name twice. *)
Definition names_once (cs : pydict (pydict details)) : Prop :=
  Forall (fun qd : string * pydict details => NoDup (pykeys (snd qd))) cs.

(** The name is in no quadrant and has no logo entry. *)
Definition absent (name : string) (st : store) : bool :=
  forallb (fun qd : string * pydict details => negb (pycontains name (snd qd)))
          (companies st)
  && negb (pycontains name (logos st)).

(** The three fields the addition requires are there and not empty. *)
Definition add_fields_given (r : request) : bool :=
  match in_company_name r, in_quadrant r, in_logo_url r with
  | Some company_name, Some quadrant, Some logo_url =>
      truthy company_name && truthy quadrant && truthy logo_url
  | _, _, _ => false
  end.

(** Which of the three guarded blocks a [prop_id] lets run. *)
Definition runs_add (triggered_id : string) : bool :=
  str_in "add-company-button" triggered_id.
Definition runs_delete (triggered_id : string) : bool :=
  str_in "delete-button" triggered_id.
Definition runs_reset (triggered_id : string) : bool :=
  str_in "reset-graph-button" triggered_id.

(** A [prop_id] that lets exactly one of the blocks run, or none. *)
Definition only_add (triggered_id : string) : bool :=
  runs_add triggered_id && negb (runs_delete triggered_id)
  && negb (runs_reset triggered_id).
Definition only_delete (triggered_id : string) : bool :=
  negb (runs_add triggered_id) && runs_delete triggered_id
  && negb (runs_reset triggered_id).
Definition no_mutation (triggered_id : string) : bool :=
  negb (runs_add triggered_id) && negb (runs_delete triggered_id)
  && negb (runs_reset triggered_id).

(** The request would add, under [quadrant], a name that another quadrant
    holds at the moment. *)
Definition readds_elsewhere (st : store) (r : request) : bool :=
  runs_add (in_triggered_id r) && add_fields_given r &&
  match in_company_name r, in_quadrant r with
  | Some company_name, Some quadrant =>
      existsb (fun qd : string * pydict details =>
                 negb (String.eqb (fst qd) quadrant)
                 && pycontains company_name (snd qd))
              (companies st)
  | _, _ => false
  end.

Section Traces.
Variable to_csv_b64 : list csv_row -> string.
Variable py_eval_index : string -> option string.

(** No request of the sequence re-adds a name held by another quadrant. *)
Fixpoint never_readds_elsewhere (rs : list request) (st : store) : bool :=
  match rs with
  | [] => true
  | r :: rest =>
      negb (readds_elsewhere st r)
      && never_readds_elsewhere rest
           (exec (update_output to_csv_b64 py_eval_index r) st)
  end.
End Traces.

(* ------------------------------------------------------------------ *)
(** ** Concrete requests

    The [prop_id] strings are the ones Dash reports: the id of a plain
    component followed by the property, and for a delete button the id
    dictionary serialised with sorted keys. *)

Definition dq : string := String "034"%char EmptyString.

Definition id_open : string :=
  String.append "{" (String.append dq (String.append "index"
    (String.append dq (String.append ":" dq)))).

Definition id_close : string :=
  String.append dq (String.append "," (String.append dq (String.append "type"
    (String.append dq (String.append ":" (String.append dq
      (String.append "delete-button" (String.append dq "}")))))))).

(** The serialised id of the delete button of [company]. *)
Definition delete_button_id (company : string) : string :=
  String.append id_open (String.append company id_close).

Definition delete_prop_id (company : string) : string :=
  String.append (delete_button_id company) ".n_clicks".

Fixpoint strip_prefix (p s : string) : option string :=
  match p, s with
  | EmptyString, _ => Some s
  | String a p', String b s' => if Ascii.eqb a b then strip_prefix p' s' else None
  | String _ _, EmptyString => None
  end.

(** The characters of a string literal up to its closing quote, and what
    follows; a backslash is not read. *)
Fixpoint read_literal (s : string) : option (string * string) :=
  match s with
  | EmptyString => None
  | String c rest =>
      if Ascii.eqb c "034"%char then Some (EmptyString, rest)
      else if Ascii.eqb c "\"%char then None
      else match read_literal rest with
           | Some (lit, after) => Some (String c lit, after)
           | None => None
           end
  end.

(** [eval(src)['index']] on the serialised id of a delete button whose
    company name has no quote and no backslash.  It stands for Python's
    [eval] at the concrete requests below, where the two agree. *)
Definition literal_index (src : string) : option string :=
  match strip_prefix id_open src with
  | None => None
  | Some s =>
      match read_literal s with
      | Some (company, after) =>
          if String.eqb (String.append dq after) id_close then Some company else None
      | None => None
      end
  end.

(** The concrete requests below are not about the encoded text. *)
Definition no_encoding (data : list csv_row) : string := EmptyString.

Definition idle_request : request :=
  {| in_title := "Magic Quadrant";
     in_n_add_clicks := 0;
     in_dual_use_filter := None;
     in_n_reset_clicks := 0;
     in_n_delete_clicks := [];
     in_company_name := None;
     in_quadrant := None;
     in_dual_use := None;
     in_logo_url := None;
     in_triggered_id := ".";
     in_http_png := fun _ => None |}.

(** The form as filled in, with the network's answer for its logo. *)
Definition form (company_name quadrant logo_url : string) (dual : bool)
    (png : option string) : request :=
  {| in_title := "Magic Quadrant";
     in_n_add_clicks := 0;
     in_dual_use_filter := None;
     in_n_reset_clicks := 0;
     in_n_delete_clicks := [];
     in_company_name := Some company_name;
     in_quadrant := Some quadrant;
     in_dual_use := if dual then Some ["dual_use"] else None;
     in_logo_url := Some logo_url;
     in_triggered_id := ".";
     in_http_png := fun _ => png |}.

Definition triggered_by (triggered_id : string) (r : request) : request :=
  {| in_title := in_title r;
     in_n_add_clicks := in_n_add_clicks r;
     in_dual_use_filter := in_dual_use_filter r;
     in_n_reset_clicks := in_n_reset_clicks r;
     in_n_delete_clicks := in_n_delete_clicks r;
     in_company_name := in_company_name r;
     in_quadrant := in_quadrant r;
     in_dual_use := in_dual_use r;
     in_logo_url := in_logo_url r;
     in_triggered_id := triggered_id;
     in_http_png := in_http_png r |}.

Definition with_filter (dual_use_filter : option (list string)) (r : request) : request :=
  {| in_title := in_title r;
     in_n_add_clicks := in_n_add_clicks r;
     in_dual_use_filter := dual_use_filter;
     in_n_reset_clicks := in_n_reset_clicks r;
     in_n_delete_clicks := in_n_delete_clicks r;
     in_company_name := in_company_name r;
     in_quadrant := in_quadrant r;
     in_dual_use := in_dual_use r;
     in_logo_url := in_logo_url r;
     in_triggered_id := in_triggered_id r;
     in_http_png := in_http_png r |}.

Definition click_add (r : request) : request :=
  triggered_by "add-company-button.n_clicks" r.
Definition click_delete (company : string) (r : request) : request :=
  triggered_by (delete_prop_id company) r.
Definition click_reset (r : request) : request :=
  triggered_by "reset-graph-button.n_clicks" r.
Definition toggle_filter (dual_use_filter : option (list string)) (r : request) : request :=
  triggered_by "dual-use-filter.value" (with_filter dual_use_filter r).

Definition acme_leaders : request :=
  form "Acme" "Leaders" "https://acme.example/logo.png" false (Some "QUNNRQ==").
Definition acme_challengers : request :=
  form "Acme" "Challengers" "https://acme.example/logo.png" false (Some "QUNNRQ==").
Definition zeta_leaders : request :=
  form "Zeta" "Leaders" "https://zeta.example/none.png" true None.
Definition acme_again : request :=
  form "Acme" "Leaders" "https://acme.example/new.png" true None.
Definition add_named : request :=
  form "add-company-button" "Leaders" "https://add.example/logo.png" false
       (Some "QUREQg==").
Definition reset_named : request :=
  form "reset-graph-button" "Leaders" "https://reset.example/logo.png" false
       (Some "UkVTRVQ=").

(** Acme, with its logo, and Zeta, whose logo failed, both under Leaders. *)
Definition demo_store : store :=
  run no_encoding literal_index
      [click_add acme_leaders; click_add zeta_leaders] initial_store.

Definition yoyo_leaders : request :=
  form "Yoyo" "Leaders" "https://yoyo.example/logo.png" false (Some "WU9ZTw==").
Definition nova_without_url : request :=
  form "Nova" "Leaders" "" false None.

(** The same with Yoyo, whose logo resolved, after Zeta. *)
Definition demo_store3 : store :=
  run no_encoding literal_index [click_add yoyo_leaders] demo_store.

(** Acme added under Leaders and then again under Challengers. *)
Definition moved_requests : list request :=
  [click_add acme_leaders; click_add acme_challengers].

Definition demo_requests : list request :=
  [click_add acme_leaders; click_add zeta_leaders; click_delete "Acme" zeta_leaders].

Definition acme_visionaries : request :=
  form "Acme" "Visionaries" "https://acme.example/logo.png" false (Some "QUNNRQ==").
Definition dotted_leaders : request :=
  form "Acme Inc." "Leaders" "https://acme.example/logo.png" false (Some "QUNNRQ==").
Definition dual_leaders : request :=
  form "Dual" "Leaders" "https://dual.example/logo.png" true (Some "RFVBTA==").
Definition below_challengers : request :=
  form "Below" "Challengers" "https://below.example/logo.png" false (Some "QkVMT1c=").

(** Sixteen companies under Leaders and one under Challengers, all with
    their logos. *)
Definition sixteen_names : list string :=
  ["A"; "B"; "C"; "D"; "E"; "F"; "G"; "H"; "I"; "J"; "K"; "L"; "M"; "N"; "O"; "P"].
Definition crowded_store : store :=
  run no_encoding literal_index
      (map (fun n => click_add (form n "Leaders" "https://logos.example/x.png" false
                                     (Some "WA==")))
           sixteen_names
       ++ [click_add below_challengers])
      initial_store.

(** Acme under Leaders and under Challengers. *)
Definition moved_store : store :=
  run no_encoding literal_index moved_requests initial_store.

(** A name the serialised id carries as it is: no quote, no backslash, and
    no dot, at which [split] would cut. *)
Fixpoint plain_name (s : string) : bool :=
  match s with
  | EmptyString => true
  | String c rest =>
      negb (Ascii.eqb c "034"%char) && negb (Ascii.eqb c "\"%char)
      && negb (Ascii.eqb c "."%char) && plain_name rest
  end.

(* ------------------------------------------------------------------ *)
(** ** Further predicates on stores and requests *)

(** The addition of the request would look up a quadrant that is no key of
    [companies]. *)
Definition add_raises (st : store) (r : request) : bool :=
  runs_add (in_triggered_id r) && add_fields_given r &&
  match in_quadrant r with
  | Some quadrant => negb (pycontains quadrant (companies st))
  | None => false
  end.

(** Some quadrant lists the name. *)
Definition held (name : string) (cs : pydict (pydict details)) : bool :=
  existsb (fun qd : string * pydict details => pycontains name (snd qd)) cs.

(** What [fetch_logo] can return: [None], or a PNG data URL. *)
Definition data_url (logo : option string) : bool :=
  match logo with
  | None => true
  | Some src => String.prefix "data:image/png;base64," src
  end.

(** The logo entries have distinct names, hold [None] or a data URL, and
    belong to companies that a quadrant lists and that have a URL. *)
Definition logos_sound (st : store) : Prop :=
  NoDup (pykeys (logos st)) /\
  Forall (fun kv : string * option string => data_url (snd kv) = true) (logos st) /\
  forall c, pycontains c (logos st) = true ->
            held c (companies st) = true /\ pycontains c (logo_urls st) = true.

(** The companies of a mapping whose logo is there. *)
Definition with_logo (lg : pydict (option string)) (d : pydict details) : pydict details :=
  filter (fun cd : string * details => logo_present (logos_get (fst cd) lg)) d.

(** The number of images the loops add for these quadrants. *)
Definition logo_count (lg : pydict (option string)) (cs : pydict (pydict details)) : nat :=
  fold_right (fun (qd : string * pydict details) n =>
                (length (with_logo lg (snd qd)) + n)%nat) 0%nat cs.

(** The name has a dot somewhere. *)
Fixpoint has_dot (s : string) : bool :=
  match s with
  | EmptyString => false
  | String c rest => Ascii.eqb c "."%char || has_dot rest
  end.

(** Every company of every quadrant is dual-use. *)
Definition all_dual_use (cs : pydict (pydict details)) : bool :=
  forallb (fun qd : string * pydict details =>
             forallb (fun cd : string * details => dual_use (snd cd)) (snd qd))
          cs.

(** No quadrant lists more than [n] companies. *)
Definition at_most_per_quadrant (n : nat) (cs : pydict (pydict details)) : bool :=
  forallb (fun qd : string * pydict details => Nat.leb (length (snd qd)) n) cs.

(* ------------------------------------------------------------------ *)
(** ** The two mutations as relations between stores *)

(** What the three assignments of the addition make of the globals. *)
Inductive added (r : request) (st : store) : store -> Prop :=
| added_entry company_name quadrant logo_url company_dict :
    in_company_name r = Some company_name ->
    in_quadrant r = Some quadrant ->
    in_logo_url r = Some logo_url ->
    add_fields_given r = true ->
    pyget quadrant (companies st) = Some company_dict ->
    added r st
      {| companies :=
           pyset quadrant
             (pyset company_name {| dual_use := truthy_list (in_dual_use r) |}
                company_dict)
             (companies st);
         logo_urls := pyset company_name logo_url (logo_urls st);
         logos :=
           pyset company_name
             (fetch_logo (in_http_png r) company_name logo_url) (logos st) |}.

(** What a deletion that found the company makes of the globals; the logo
    entry goes too unless its [del] raises. *)
Inductive deleted (company : string) (st : store) : store -> Prop :=
| deleted_entry cs' lg' :
    delete_company company (companies st) = Some cs' ->
    lg' = match pydel company (logos st) with
          | Some l => l
          | None => logos st
          end ->
    deleted company st
      {| companies := cs'; logo_urls := logo_urls st; logos := lg' |}.

(* ------------------------------------------------------------------ *)
(** * Facts about the dictionaries *)

Section PyDictFacts.
Context {V : Type}.
Implicit Types (k : string) (v : V) (d : pydict V).

Lemma pyget_pyset_same k v d : pyget k (pyset k v d) = Some v.
Proof.
  induction d as [|[k' v'] d IH]; simpl.
  - now rewrite String.eqb_refl.
  - destruct (String.eqb k k') eqn:E; simpl; rewrite E; auto.
Qed.

Lemma pyget_pyset_other k k' v d :
  k <> k' -> pyget k' (pyset k v d) = pyget k' d.
Proof.
  intros Hne. induction d as [|[k0 v0] d IH]; simpl.
  - destruct (String.eqb_spec k' k); congruence.
  - destruct (String.eqb_spec k k0); simpl.
    + subst k0. destruct (String.eqb_spec k' k); congruence.
    + destruct (String.eqb k' k0); auto.
Qed.

Lemma pyget_In k v d : pyget k d = Some v -> In (k, v) d.
Proof.
  induction d as [|[k' v'] d IH]; simpl; [discriminate|].
  destruct (String.eqb_spec k k'); intros H.
  - left. congruence.
  - right. auto.
Qed.

Lemma pyget_None_keys k d : pyget k d = None <-> ~ In k (pykeys d).
Proof.
  induction d as [|[k' v'] d IH]; simpl.
  - tauto.
  - destruct (String.eqb_spec k k'); split; intros H.
    + discriminate.
    + exfalso. apply H. left. congruence.
    + intros [E|Hin]; [congruence|]. now apply IH in H.
    + apply IH. tauto.
Qed.

Lemma pycontains_keys k d : pycontains k d = true <-> In k (pykeys d).
Proof.
  unfold pycontains. destruct (pyget k d) eqn:E.
  - split; [intros _|reflexivity].
    apply pyget_In in E. change k with (fst (k, v)). now apply in_map.
  - split; [discriminate|]. intros Hin. now apply pyget_None_keys in E.
Qed.

Lemma pykeys_pyset_present k v d :
  pycontains k d = true -> pykeys (pyset k v d) = pykeys d.
Proof.
  unfold pycontains. induction d as [|[k' v'] d IH]; simpl; [discriminate|].
  destruct (String.eqb k k') eqn:E; simpl; [reflexivity|].
  intros H. now rewrite IH.
Qed.

Lemma pyset_absent k v d : pyget k d = None -> pyset k v d = d ++ [(k, v)].
Proof.
  induction d as [|[k' v'] d IH]; simpl; [reflexivity|].
  destruct (String.eqb k k'); [discriminate|].
  intros H. now rewrite IH.
Qed.

Lemma pykeys_pyset k v d x :
  In x (pykeys (pyset k v d)) <-> x = k \/ In x (pykeys d).
Proof.
  unfold pykeys. induction d as [|[k' v'] d IH]; simpl.
  - intuition congruence.
  - destruct (String.eqb_spec k k'); simpl.
    + subst. intuition congruence.
    + rewrite IH. tauto.
Qed.

Lemma pydel_pyset_absent k v d :
  pyget k d = None -> pydel k (pyset k v d) = Some d.
Proof.
  induction d as [|[k' v'] d IH]; simpl.
  - now rewrite String.eqb_refl.
  - destruct (String.eqb k k') eqn:E; [discriminate|].
    intros H. simpl. rewrite E, IH; auto.
Qed.

Lemma pydel_None k d : pydel k d = None <-> pyget k d = None.
Proof.
  induction d as [|[k' v'] d IH]; simpl; [tauto|].
  destruct (String.eqb k k'); [split; discriminate|].
  destruct (pydel k d); split; intros H; try discriminate; try reflexivity.
  - apply IH in H. discriminate.
  - now apply IH.
Qed.

Lemma pydel_keys k d d' x :
  pydel k d = Some d' -> In x (pykeys d') -> In x (pykeys d).
Proof.
  revert d'. induction d as [|[k' v'] d IH]; simpl; intros d'; [discriminate|].
  destruct (String.eqb k k').
  - intros [= <-]. auto.
  - destruct (pydel k d) as [r|]; [|discriminate].
    intros [= <-]. simpl. intros [E|Hin]; [now left|right]. now apply (IH r).
Qed.

Lemma pydel_contains k d d' x :
  pydel k d = Some d' -> pycontains x d' = true -> pycontains x d = true.
Proof.
  intros Hd Hc. apply pycontains_keys. apply pycontains_keys in Hc.
  eauto using pydel_keys.
Qed.

Lemma NoDup_pykeys_pyset k v d : NoDup (pykeys d) -> NoDup (pykeys (pyset k v d)).
Proof.
  induction d as [|[k' v'] d IH]; simpl; intros H.
  - constructor; [simpl; tauto|constructor].
  - inversion H as [|? ? Hnin Hnd]; subst.
    destruct (String.eqb_spec k k'); simpl.
    + now constructor.
    + constructor; [|auto].
      rewrite pykeys_pyset. intros [E|Hin]; [congruence|tauto].
Qed.

Lemma NoDup_pykeys_pydel k d d' :
  pydel k d = Some d' -> NoDup (pykeys d) -> NoDup (pykeys d').
Proof.
  revert d'. induction d as [|[k' v'] d IH]; simpl; intros d'; [discriminate|].
  intros Hd H. inversion H as [|? ? Hnin Hnd]; subst.
  destruct (String.eqb k k').
  - now injection Hd as <-.
  - destruct (pydel k d) as [r|] eqn:E; [|discriminate].
    injection Hd as <-. simpl. constructor; [|now apply IH].
    intros Hin. apply Hnin. eauto using pydel_keys.
Qed.

(** Overwriting a key that is at index [i] changes the value at [i] and
    nothing else. *)
Lemma nth_error_pyset_present k v v0 d i :
  NoDup (pykeys d) -> nth_error d i = Some (k, v0) ->
  nth_error (pyset k v d) i = Some (k, v) /\
  forall j, j <> i -> nth_error (pyset k v d) j = nth_error d j.
Proof.
  revert i. induction d as [|[k' v'] d IH]; intros i Hnd Hi.
  - destruct i; discriminate.
  - simpl in Hnd. inversion Hnd as [|? ? Hnin Hnd']; subst.
    simpl. destruct (String.eqb_spec k k').
    + subst k'. destruct i as [|i]; simpl in Hi.
      * split; [reflexivity|]. intros [|j] Hj; [congruence|reflexivity].
      * exfalso. apply Hnin. apply nth_error_In in Hi.
        change k with (fst (k, v0)). now apply in_map.
    + destruct i as [|i]; simpl in Hi; [congruence|].
      destruct (IH i Hnd' Hi) as [H1 H2]. split; [exact H1|].
      intros [|j] Hj; simpl; [reflexivity|]. apply H2. congruence.
Qed.
End PyDictFacts.

(* ------------------------------------------------------------------ *)
(** * Facts about the callback *)

Lemma Forall_pyset {V : Type} (P : string * V -> Prop) k v (d : pydict V) :
  (forall k', P (k', v)) -> Forall P d -> Forall P (pyset k v d).
Proof.
  intros Hv. induction 1 as [|[k' v'] d Hx Hd IH]; simpl.
  - constructor; auto.
  - destruct (String.eqb k k'); constructor; auto.
Qed.

Lemma delete_company_pyget company cs cs' q d' :
  delete_company company cs = Some cs' ->
  pyget q cs' = Some d' ->
  exists d, pyget q cs = Some d /\
            (d' = d \/ pydel company d = Some d').
Proof.
  revert cs'. induction cs as [|[q0 d0] cs IH]; simpl; intros cs'; [discriminate|].
  destruct (pydel company d0) as [d0'|] eqn:E.
  - intros [= <-]. simpl. destruct (String.eqb q q0).
    + intros [= <-]. eauto.
    + intros H. eauto.
  - destruct (delete_company company cs) as [rest'|]; [|discriminate].
    intros [= <-]. simpl. destruct (String.eqb q q0).
    + intros [= <-]. eauto.
    + intros H. eapply IH; eauto.
Qed.

Lemma delete_company_keys company cs cs' :
  delete_company company cs = Some cs' -> pykeys cs' = pykeys cs.
Proof.
  revert cs'. induction cs as [|[q0 d0] cs IH]; simpl; intros cs'; [discriminate|].
  destruct (pydel company d0) as [d0'|].
  - now intros [= <-].
  - destruct (delete_company company cs) as [rest'|]; [|discriminate].
    intros [= <-]. simpl. f_equal. now apply IH.
Qed.

Lemma delete_company_names_once company cs cs' :
  delete_company company cs = Some cs' -> names_once cs -> names_once cs'.
Proof.
  unfold names_once.
  revert cs'. induction cs as [|[q0 d0] cs IH]; simpl; intros cs'; [discriminate|].
  intros Hd H. inversion H as [|? ? H0 Hrest]; subst. simpl in H0.
  destruct (pydel company d0) as [d0'|] eqn:E.
  - injection Hd as <-. constructor; [|assumption].
    simpl. eauto using NoDup_pykeys_pydel.
  - destruct (delete_company company cs) as [rest'|]; [|discriminate].
    injection Hd as <-. constructor; auto.
Qed.

Lemma deleted_names_once company st st' :
  deleted company st st' -> names_once (companies st) -> names_once (companies st').
Proof.
  intros [cs' lg' Hd _]. simpl. eauto using delete_company_names_once.
Qed.

Lemma added_names_once r st st' :
  added r st st' -> names_once (companies st) -> names_once (companies st').
Proof.
  intros [name q url d Hn Hq Hu Hv Hget] H. simpl.
  apply Forall_pyset; [|exact H].
  intros q'. simpl. apply NoDup_pykeys_pyset.
  apply pyget_In in Hget.
  unfold names_once in H. rewrite Forall_forall in H.
  exact (H _ Hget).
Qed.

Lemma deleted_unique_quadrant company st st' :
  deleted company st st' ->
  unique_quadrant (companies st) -> unique_quadrant (companies st').
Proof.
  intros [cs' lg' Hd _] Hu. simpl.
  intros name q1 q2 d1 d2 H1 H2 C1 C2.
  destruct (delete_company_pyget _ _ _ Hd H1) as (e1 & G1 & S1).
  destruct (delete_company_pyget _ _ _ Hd H2) as (e2 & G2 & S2).
  apply (Hu name q1 q2 e1 e2 G1 G2).
  - destruct S1 as [->|S1]; eauto using pydel_contains.
  - destruct S2 as [->|S2]; eauto using pydel_contains.
Qed.

Lemma added_keys r st st' :
  added r st st' -> pykeys (companies st') = pykeys (companies st).
Proof.
  intros [name q url d Hn Hq Hu Hv Hget]. simpl.
  apply pykeys_pyset_present. unfold pycontains. now rewrite Hget.
Qed.

Lemma deleted_keys company st st' :
  deleted company st st' -> pykeys (companies st') = pykeys (companies st).
Proof.
  intros [cs' lg' Hd _]. simpl. eauto using delete_company_keys.
Qed.

(** Adding a name that no other quadrant holds keeps names in one
    quadrant. *)
Lemma added_unique_quadrant r st st' :
  added r st st' ->
  runs_add (in_triggered_id r) = true ->
  readds_elsewhere st r = false ->
  unique_quadrant (companies st) -> unique_quadrant (companies st').
Proof.
  intros [name q url d Hn Hq Hurl Hv Hget] Hrun Hside Hu. simpl.
  unfold readds_elsewhere in Hside. rewrite Hrun, Hv, Hn, Hq in Hside.
  simpl in Hside.
  assert (Hfresh : forall q' d', pyget q' (companies st) = Some d' ->
                     q' <> q -> pycontains name d' = false).
  { intros q' d' G Hne. apply pyget_In in G.
    destruct (pycontains name d') eqn:C; [|reflexivity].
    exfalso.
    assert (X : existsb (fun qd : string * pydict details =>
                negb (String.eqb (fst qd) q) && pycontains name (snd qd))
                (companies st) = true).
    { apply existsb_exists. exists (q', d'). split; [exact G|]. simpl.
      rewrite C. destruct (String.eqb_spec q' q); [contradiction|reflexivity]. }
    congruence. }
  set (e := {| dual_use := truthy_list (in_dual_use r) |}).
  assert (Hold : forall x, pycontains x (pyset name e d) = true ->
                   x = name \/ pycontains x d = true).
  { intros x C. apply pycontains_keys in C. apply pykeys_pyset in C.
    destruct C as [->|C]; [now left|right]. now apply pycontains_keys. }
  intros x q1 q2 d1 d2 H1 H2 C1 C2.
  destruct (String.eqb_spec q q1) as [E1|N1]; destruct (String.eqb_spec q q2) as [E2|N2].
  - congruence.
  - exfalso. subst q1. rewrite pyget_pyset_same in H1. injection H1 as <-.
    rewrite pyget_pyset_other in H2 by assumption.
    destruct (Hold x C1) as [->|C].
    + rewrite (Hfresh q2 d2 H2) in C2; [discriminate|congruence].
    + apply N2. exact (Hu x q q2 d d2 Hget H2 C C2).
  - exfalso. subst q2. rewrite pyget_pyset_same in H2. injection H2 as <-.
    rewrite pyget_pyset_other in H1 by assumption.
    destruct (Hold x C2) as [->|C].
    + rewrite (Hfresh q1 d1 H1) in C1; [discriminate|congruence].
    + apply N1. exact (Hu x q q1 d d1 Hget H1 C C1).
  - rewrite pyget_pyset_other in H1, H2 by assumption.
    exact (Hu x q1 q2 d1 d2 H1 H2 C1 C2).
Qed.

(** The addition either is skipped, or raises before assigning anything,
    or makes its three assignments. *)
Lemma handle_add_cases r st :
  (add_fields_given r = false /\ handle_add r st = (st, Ok tt)) \/
  (exists q, add_fields_given r = true /\ in_quadrant r = Some q /\
             pyget q (companies st) = None /\
             handle_add r st = (st, Raise (KeyError q))) \/
  (exists st', added r st st' /\ handle_add r st = (st', Ok tt)).
Proof.
  unfold handle_add.
  destruct (in_company_name r) as [name|] eqn:Hn;
    [|left; unfold add_fields_given; rewrite Hn; auto].
  destruct (in_quadrant r) as [q|] eqn:Hq;
    [|left; unfold add_fields_given; rewrite Hn, Hq; auto].
  destruct (in_logo_url r) as [url|] eqn:Hu;
    [|left; unfold add_fields_given; rewrite Hn, Hq, Hu; auto].
  destruct (truthy name && truthy q && truthy url) eqn:Hv;
    [|left; unfold add_fields_given; rewrite Hn, Hq, Hu; auto].
  assert (Hg : add_fields_given r = true)
    by (unfold add_fields_given; now rewrite Hn, Hq, Hu).
  right. simpl. unfold bind, gets.
  destruct (pyget q (companies st)) as [d|] eqn:Hget.
  - right. eexists. split; [|reflexivity].
    now apply (added_entry r st Hn Hq Hu Hg Hget).
  - left. exists q. auto.
Qed.

Section CallbackFacts.
Variable to_csv_b64 : list csv_row -> string.
Variable py_eval_index : string -> option string.

Local Abbreviation on_delete := (handle_delete py_eval_index).
Local Abbreviation action := (apply_action py_eval_index).
Local Abbreviation callback := (update_output to_csv_b64 py_eval_index).
Local Abbreviation after := (run to_csv_b64 py_eval_index).
Local Abbreviation reach := (reachable to_csv_b64 py_eval_index).

(** The deletion never raises, and either leaves the globals alone or
    deletes the company its token names. *)
Lemma handle_delete_cases triggered_id st :
  exists st',
    on_delete triggered_id st = (st', Ok tt) /\
    (st' = st \/
     exists company,
       py_eval_index (before_dot triggered_id) = Some company /\
       deleted company st st').
Proof.
  unfold handle_delete, try_except.
  eexists. split; [reflexivity|].
  destruct (py_eval_index (before_dot triggered_id)) as [company|];
    [|left; reflexivity].
  unfold bind, gets. simpl.
  destruct (delete_company company (companies st)) as [cs'|] eqn:Hd;
    [|left; reflexivity].
  right. exists company. split; [reflexivity|].
  unfold modify, with_companies, with_logos, raise. simpl.
  destruct (pydel company (logos st)) as [lg'|] eqn:Hl; simpl.
  - apply (deleted_entry company st Hd). now rewrite Hl.
  - apply (deleted_entry company st Hd). now rewrite Hl.
Qed.

(** The rendering functions only read the globals. *)
Lemma update_chart_reads dual_use_filter st :
  exec (update_chart dual_use_filter) st = st.
Proof.
  unfold exec, update_chart, bind, gets, raise, ret. simpl.
  now destruct (add_logos (logos st) (filtered_companies dual_use_filter (companies st))).
Qed.

Lemma exec_update_output r st :
  exec (callback r) st = exec (action r) st.
Proof.
  unfold exec, update_output, bind.
  destruct (action r st) as [st1 [f|e]]; [|reflexivity].
  pose proof (update_chart_reads f st1) as Hc. unfold exec in Hc.
  destruct (update_chart f st1) as [st2 [fig|e]]; simpl in Hc; subst st2;
    reflexivity.
Qed.

Lemma when_add_cases r st :
  (exists e, when (runs_add (in_triggered_id r)) (handle_add r) st = (st, Raise e)) \/
  (exists st1,
     when (runs_add (in_triggered_id r)) (handle_add r) st = (st1, Ok tt) /\
     (st1 = st \/ (runs_add (in_triggered_id r) = true /\ added r st st1))).
Proof.
  unfold when. destruct (runs_add (in_triggered_id r)) eqn:Ha.
  - destruct (handle_add_cases r st)
      as [[_ ->]|[(q & _ & _ & _ & ->)|(st1 & Hadd & ->)]]; eauto 6.
  - right. exists st. split; [reflexivity|now left].
Qed.

Lemma when_delete_cases triggered_id st1 :
  exists st2,
    when (runs_delete triggered_id) (on_delete triggered_id) st1
      = (st2, Ok tt) /\
    (st2 = st1 \/
     (runs_delete triggered_id = true /\
      exists company,
        py_eval_index (before_dot triggered_id) = Some company /\
        deleted company st1 st2)).
Proof.
  unfold when. destruct (runs_delete triggered_id) eqn:Hd.
  - destruct (handle_delete_cases triggered_id st1) as (st2 & -> & Hs).
    exists st2. split; [reflexivity|]. destruct Hs; auto.
  - exists st1. split; [reflexivity|now left].
Qed.

(** One request, as far as the globals go: at most one addition, then at
    most one deletion, then possibly the reset. *)
Lemma apply_action_cases r st :
  exists st1 st2,
    (st1 = st \/ (runs_add (in_triggered_id r) = true /\ added r st st1)) /\
    (st2 = st1 \/
     (runs_delete (in_triggered_id r) = true /\
      exists company,
        py_eval_index (before_dot (in_triggered_id r)) = Some company /\
        deleted company st1 st2)) /\
    (exec (action r) st = st2 \/
     (runs_reset (in_triggered_id r) = true /\
      exec (action r) st = initial_store)).
Proof.
  unfold exec, apply_action, bind.
  fold (runs_add (in_triggered_id r)) (runs_delete (in_triggered_id r))
       (runs_reset (in_triggered_id r)).
  destruct (when_add_cases r st) as [[e ->]|(st1 & -> & H1)].
  - exists st, st. simpl. auto.
  - destruct (when_delete_cases (in_triggered_id r) st1) as (st2 & -> & H2).
    exists st1, st2. split; [exact H1|]. split; [exact H2|].
    destruct (runs_reset (in_triggered_id r)); simpl; auto.
Qed.

Lemma unique_quadrant_empty : unique_quadrant empty_companies.
Proof.
  intros name q1 q2 d1 d2 H1 _ C1 _. exfalso.
  simpl in H1.
  repeat match type of H1 with
         | (if ?b then _ else _) = _ => destruct b
         end;
    try discriminate; injection H1 as <-; discriminate.
Qed.

Lemma names_once_empty : names_once empty_companies.
Proof. repeat constructor. Qed.

(** A property of [companies] that holds of the empty quadrants and that
    the addition of the request and every deletion preserve is preserved by
    the whole request. *)
Lemma request_preserves (P : pydict (pydict details) -> Prop) r st :
  P empty_companies ->
  (forall st1, added r st st1 -> runs_add (in_triggered_id r) = true ->
               P (companies st) -> P (companies st1)) ->
  (forall company st1 st2, deleted company st1 st2 ->
               P (companies st1) -> P (companies st2)) ->
  P (companies st) -> P (companies (exec (callback r) st)).
Proof.
  intros H0 Hadd Hdel HP. rewrite exec_update_output.
  destruct (apply_action_cases r st) as (st1 & st2 & H1 & H2 & H3).
  assert (P1 : P (companies st1)).
  { destruct H1 as [->|[Ha A]]; auto. }
  assert (P2 : P (companies st2)).
  { destruct H2 as [->|(_ & company & _ & D)]; eauto. }
  destruct H3 as [->|[_ ->]]; auto.
Qed.

Lemma request_names_once r st :
  names_once (companies st) -> names_once (companies (exec (callback r) st)).
Proof.
  apply request_preserves.
  - exact names_once_empty.
  - intros st1 A _. now apply added_names_once with (r := r).
  - intros company st1 st2 D. now apply deleted_names_once with (company := company).
Qed.

Lemma request_keys r st :
  pykeys (companies st) = pykeys empty_companies ->
  pykeys (companies (exec (callback r) st)) = pykeys empty_companies.
Proof.
  apply (request_preserves (fun cs => pykeys cs = pykeys empty_companies)).
  - reflexivity.
  - intros st1 A _ H. now rewrite (added_keys A).
  - intros company st1 st2 D H. now rewrite (deleted_keys D).
Qed.

Lemma request_unique_quadrant r st :
  readds_elsewhere st r = false ->
  unique_quadrant (companies st) ->
  unique_quadrant (companies (exec (callback r) st)).
Proof.
  intros Hside. apply request_preserves.
  - exact unique_quadrant_empty.
  - intros st1 A Ha. now apply added_unique_quadrant with (r := r).
  - intros company st1 st2 D. now apply deleted_unique_quadrant with (company := company).
Qed.

Lemma reachable_names_once st : reach st -> names_once (companies st).
Proof.
  induction 1; [exact names_once_empty|now apply request_names_once].
Qed.

Lemma reachable_keys st : reach st -> pykeys (companies st) = pykeys empty_companies.
Proof.
  induction 1; [reflexivity|now apply request_keys].
Qed.

Lemma reachable_after rs st : reach st -> reach (after rs st).
Proof.
  revert st. induction rs as [|r rs IH]; simpl; intros st H; [exact H|].
  apply IH. now constructor.
Qed.

Lemma after_unique_quadrant rs st :
  never_readds_elsewhere to_csv_b64 py_eval_index rs st = true ->
  unique_quadrant (companies st) ->
  unique_quadrant (companies (after rs st)).
Proof.
  revert st. induction rs as [|r rs IH]; simpl; intros st Hn Hu; [exact Hu|].
  apply andb_prop in Hn. destruct Hn as [Hr Hn].
  apply IH; [exact Hn|].
  apply request_unique_quadrant; [|exact Hu].
  now destruct (readds_elsewhere st r).
Qed.

(** C1 (as amended): after any sequence of requests no quadrant lists a
    name twice; and every name is held by at most one quadrant as long as no
    request of the sequence adds, under one quadrant, a name that another
    quadrant holds at that moment. *)
Theorem names_in_one_quadrant rs :
  names_once (companies (after rs initial_store)) /\
  (never_readds_elsewhere to_csv_b64 py_eval_index rs initial_store = true ->
   unique_quadrant (companies (after rs initial_store))).
Proof.
  split.
  - apply reachable_names_once, reachable_after. constructor.
  - intros Hn. apply after_unique_quadrant; [exact Hn|].
    exact unique_quadrant_empty.
Qed.

(* ------------------------------------------------------------------ *)
(** * The grid *)

Lemma grid_cell_injective x y i j :
  grid_x x i = grid_x x j -> grid_y y i = grid_y y j -> i = j.
Proof.
  unfold grid_x, grid_y. intros Hx Hy.
  assert (Hm : Z.of_nat i mod 3 = Z.of_nat j mod 3) by lia.
  assert (Hd : Z.of_nat i / 3 = Z.of_nat j / 3) by lia.
  pose proof (Z.div_mod (Z.of_nat i) 3 ltac:(lia)).
  pose proof (Z.div_mod (Z.of_nat j) 3 ltac:(lia)).
  lia.
Qed.

(** Every image of the inner loop sits in the cell of the index its
    company has in the enumeration. *)
Lemma place_logos_inv x y lg d : forall i0 im,
  In im (place_logos x y lg i0 d) ->
  exists i c det,
    nth_error d i = Some (c, det) /\
    logos_get c lg = Some (source im) /\ truthy (source im) = true /\
    img_x im = grid_x x (i0 + i) /\ img_y im = grid_y y (i0 + i) /\
    sizex im = 10 /\ sizey im = 10.
Proof.
  induction d as [|[c det] d IH]; simpl; intros i0 im Hin; [contradiction|].
  assert (Hlater : In im (place_logos x y lg (S i0) d) ->
            exists i c0 det0,
              nth_error ((c, det) :: d) i = Some (c0, det0) /\
              logos_get c0 lg = Some (source im) /\ truthy (source im) = true /\
              img_x im = grid_x x (i0 + i) /\ img_y im = grid_y y (i0 + i) /\
              sizex im = 10 /\ sizey im = 10).
  { intros H. destruct (IH _ _ H) as (i & c0 & det0 & Hn & Hrest).
    exists (S i), c0, det0. split; [exact Hn|].
    now replace (i0 + S i)%nat with (S i0 + i)%nat by lia. }
  destruct (logos_get c lg) as [logo|] eqn:Hl; [|auto].
  destruct (truthy logo) eqn:Ht; [|auto].
  destruct Hin as [<-|Hin]; [|auto].
  exists 0%nat, c, det. simpl. rewrite Nat.add_0_r. auto 10.
Qed.

(** A company whose logo is there gets its image, in the cell of its
    index. *)
Lemma place_logos_in x y lg d : forall i0 i c det logo,
  nth_error d i = Some (c, det) ->
  logos_get c lg = Some logo -> truthy logo = true ->
  In {| source := logo; img_x := grid_x x (i0 + i); img_y := grid_y y (i0 + i);
        sizex := 10; sizey := 10 |}
     (place_logos x y lg i0 d).
Proof.
  induction d as [|[c0 det0] d IH]; intros i0 i c det logo Hn Hl Ht.
  - destruct i; discriminate.
  - destruct i as [|i]; simpl in Hn.
    + injection Hn as -> ->. simpl. rewrite Hl, Ht, Nat.add_0_r. now left.
    + assert (H := IH (S i0) i c det logo Hn Hl Ht).
      replace (S i0 + i)%nat with (i0 + S i)%nat in H by lia.
      simpl. destruct (logos_get c0 lg) as [l0|]; [|exact H].
      destruct (truthy l0); [now right|exact H].
Qed.

(** When every logo is there, the images are the companies, one by one. *)
Lemma place_logos_all x y lg d :
  (forall c det, In (c, det) d -> logo_present (logos_get c lg) = true) ->
  forall i0 i c det,
    nth_error d i = Some (c, det) ->
    exists logo,
      logos_get c lg = Some logo /\
      nth_error (place_logos x y lg i0 d) i =
        Some {| source := logo; img_x := grid_x x (i0 + i);
                img_y := grid_y y (i0 + i); sizex := 10; sizey := 10 |}.
Proof.
  induction d as [|[c0 det0] d IH]; intros Hall i0 i c det Hn.
  - destruct i; discriminate.
  - assert (H0 := Hall c0 det0 (or_introl eq_refl)).
    unfold logo_present in H0.
    simpl. destruct (logos_get c0 lg) as [l0|] eqn:Hl; [|discriminate].
    rewrite H0.
    destruct i as [|i]; simpl in Hn.
    + injection Hn as <- <-. exists l0. rewrite Nat.add_0_r. auto.
    + destruct (IH (fun c' det' H => Hall c' det' (or_intror H)) (S i0) i c det Hn)
        as (logo & Hlg & Hnth).
      exists logo. split; [exact Hlg|]. simpl.
      now replace (i0 + S i)%nat with (S i0 + i)%nat by lia.
Qed.

(** No two images of one quadrant share a cell. *)
Lemma place_logos_cells_NoDup x y lg d : forall i0,
  NoDup (map cell_of (place_logos x y lg i0 d)).
Proof.
  induction d as [|[c det] d IH]; simpl; intros i0; [constructor|].
  destruct (logos_get c lg) as [logo|]; [|apply IH].
  destruct (truthy logo); [|apply IH].
  simpl. constructor; [|apply IH].
  intros Hin. apply in_map_iff in Hin. destruct Hin as (im & Hc & Hin).
  apply place_logos_inv in Hin.
  destruct Hin as (i & _ & _ & _ & _ & _ & Hx & Hy & _).
  unfold cell_of in Hc. simpl in Hc. injection Hc as Ex Ey.
  rewrite Hx in Ex. rewrite Hy in Ey.
  pose proof (grid_cell_injective x y _ _ Ex Ey). lia.
Qed.

Lemma add_logos_incl lg qs : forall imgs q d x y,
  add_logos lg qs = Ok imgs ->
  In (q, d) qs -> pyget q positions = Some (x, y) ->
  incl (place_logos x y lg 0 d) imgs.
Proof.
  induction qs as [|[q0 d0] qs IH]; cbn [add_logos In]; intros imgs q d x y Hok Hin Hp;
    [contradiction|].
  destruct (pyget q0 positions) as [[x0 y0]|] eqn:Hp0; [|discriminate].
  destruct (add_logos lg qs) as [later|] eqn:Hl; [|discriminate].
  injection Hok as <-.
  destruct Hin as [E|Hin].
  - injection E as -> ->. rewrite Hp in Hp0. injection Hp0 as <- <-.
    now apply incl_appl, incl_refl.
  - apply incl_appr. eapply IH; eauto.
Qed.

Lemma add_logos_inv lg qs : forall imgs im,
  add_logos lg qs = Ok imgs -> In im imgs ->
  exists q d x y,
    In (q, d) qs /\ pyget q positions = Some (x, y) /\
    In im (place_logos x y lg 0 d).
Proof.
  induction qs as [|[q0 d0] qs IH]; cbn [add_logos]; intros imgs im Hok Hin.
  - injection Hok as <-. contradiction.
  - destruct (pyget q0 positions) as [[x0 y0]|] eqn:Hp0; [|discriminate].
    destruct (add_logos lg qs) as [later|] eqn:Hl; [|discriminate].
    injection Hok as <-. apply in_app_or in Hin. destruct Hin as [Hin|Hin].
    + exists q0, d0, x0, y0. split; [now left|auto].
    + destruct (IH later im eq_refl Hin) as (q & d & x & y & H1 & H2 & H3).
      exists q, d, x, y. split; [now right|auto].
Qed.

Lemma add_logos_ok lg qs :
  (forall q, In q (pykeys qs) -> pyget q positions <> None) ->
  exists imgs, add_logos lg qs = Ok imgs.
Proof.
  induction qs as [|[q0 d0] qs IH]; cbn [add_logos]; intros Hk; [eauto|].
  destruct (pyget q0 positions) as [[x0 y0]|] eqn:Hp0.
  - destruct IH as [later ->]; [intros q Hq; apply Hk; now right|]. eauto.
  - exfalso. apply (Hk q0); [now left|exact Hp0].
Qed.

Lemma pykeys_filtered_companies f cs :
  pykeys (filtered_companies f cs) = pykeys cs.
Proof.
  unfold filtered_companies, pykeys. destruct f; [|reflexivity].
  rewrite map_map. reflexivity.
Qed.

(** With the four quadrants as keys the chart is drawn. *)
Lemma update_chart_returns f st :
  pykeys (companies st) = pykeys empty_companies ->
  exists imgs,
    add_logos (logos st) (filtered_companies f (companies st)) = Ok imgs /\
    update_chart f st =
      (st, Ok {| images := imgs; annotations := quadrant_labels;
                 shapes := quadrant_lines;
                 xaxis_range := (0, 100); yaxis_range := (0, 100) |}).
Proof.
  intros Hk.
  destruct (add_logos_ok (logos st) (filtered_companies f (companies st)))
    as [imgs Hok].
  { intros q Hq. rewrite pykeys_filtered_companies, Hk in Hq. simpl in Hq.
    destruct Hq as [<-|[<-|[<-|[<-|[]]]]]; discriminate. }
  exists imgs. split; [exact Hok|].
  unfold update_chart, bind, gets, ret. simpl. now rewrite Hok.
Qed.

(** C2: in every reachable store, with or without the filter, the chart is
    drawn, and for every quadrant with anchor [(x, y)] the company at index
    [i] of the enumeration has its image at
    [(x + (i mod 3) * 10, y - (i / 3) * 10)]; different indices are
    different cells, so no two images of a quadrant share a cell; and the
    chart has no other images. *)
Theorem grid_cells_of_chart st f :
  reach st ->
  exists fig,
    update_chart f st = (st, Ok fig) /\
    (forall q d x y,
       In (q, d) (filtered_companies f (companies st)) ->
       pyget q positions = Some (x, y) ->
       (forall i c det logo,
          nth_error d i = Some (c, det) ->
          logos_get c (logos st) = Some logo -> truthy logo = true ->
          In {| source := logo;
                img_x := x + (Z.of_nat i mod 3) * 10;
                img_y := y - (Z.of_nat i / 3) * 10;
                sizex := 10; sizey := 10 |} (images fig)) /\
       (forall i j, i <> j ->
          (x + (Z.of_nat i mod 3) * 10, y - (Z.of_nat i / 3) * 10) <>
          (x + (Z.of_nat j mod 3) * 10, y - (Z.of_nat j / 3) * 10)) /\
       NoDup (map cell_of (place_logos x y (logos st) 0 d))) /\
    (forall im, In im (images fig) ->
       exists q d x y i c det,
         In (q, d) (filtered_companies f (companies st)) /\
         pyget q positions = Some (x, y) /\
         nth_error d i = Some (c, det) /\
         logos_get c (logos st) = Some (source im) /\
         img_x im = x + (Z.of_nat i mod 3) * 10 /\
         img_y im = y - (Z.of_nat i / 3) * 10).
Proof.
  intros Hr.
  destruct (update_chart_returns f st (reachable_keys Hr)) as (imgs & Hok & Hfig).
  eexists. split; [exact Hfig|]. cbn [images]. split.
  - intros q d x y Hin Hp. split; [|split].
    + intros i c det logo Hn Hl Ht.
      eapply add_logos_incl; [exact Hok|exact Hin|exact Hp|].
      exact (place_logos_in x y (logos st) d 0 i Hn Hl Ht).
    + intros i j Hne E. injection E as Ex Ey.
      apply Hne. now apply (grid_cell_injective x y).
    + apply place_logos_cells_NoDup.
  - intros im Hin.
    destruct (@add_logos_inv _ _ _ _ Hok Hin) as (q & d & x & y & Hq & Hp & Him).
    apply place_logos_inv in Him.
    destruct Him as (i & c & det & Hn & Hl & _ & Hx & Hy & _).
    exists q, d, x, y, i, c, det. auto 10.
Qed.

(** C6: take the company at index [i] of a quadrant's enumeration.  Were
    every logo of the quadrant resolved, its image would be the [i]-th one,
    at [(x + (i mod 3) * 10, y - (i / 3) * 10)].  With the logos as they
    are, whichever of them failed: if this company's logo failed, the
    quadrant has no image in that cell; if it resolved, its image is in the
    chart in that very cell. *)
Theorem unresolved_logo_keeps_slots st f fig q d x y lg_all i c det :
  returned (update_chart f) st = Ok fig ->
  In (q, d) (filtered_companies f (companies st)) ->
  pyget q positions = Some (x, y) ->
  nth_error d i = Some (c, det) ->
  (forall c' det', In (c', det') d -> logo_present (logos_get c' lg_all) = true) ->
  exists im_all,
    nth_error (place_logos x y lg_all 0 d) i = Some im_all /\
    img_x im_all = x + (Z.of_nat i mod 3) * 10 /\
    img_y im_all = y - (Z.of_nat i / 3) * 10 /\
    (logo_present (logos_get c (logos st)) = false ->
     forall im, In im (place_logos x y (logos st) 0 d) ->
                cell_of im <> cell_of im_all) /\
    (forall logo,
       logos_get c (logos st) = Some logo -> truthy logo = true ->
       In {| source := logo; img_x := img_x im_all; img_y := img_y im_all;
             sizex := 10; sizey := 10 |} (images fig)).
Proof.
  intros Hfig Hin Hp Hn Hall.
  destruct (place_logos_all x y lg_all d Hall 0 i Hn) as (logo_all & _ & Hnth).
  eexists. split; [exact Hnth|]. simpl. split; [reflexivity|]. split; [reflexivity|].
  split.
  - intros Hfail im Him E.
    apply place_logos_inv in Him.
    destruct Him as (j & c' & det' & Hj & Hl & Ht & Hx & Hy & _).
    unfold cell_of in E. simpl in E. injection E as Ex Ey.
    rewrite Hx in Ex. rewrite Hy in Ey.
    assert (j = i) by exact (grid_cell_injective x y _ _ Ex Ey). subst j.
    rewrite Hn in Hj. injection Hj as <- <-.
    unfold logo_present in Hfail. rewrite Hl, Ht in Hfail. discriminate.
  - intros logo Hl Ht.
    unfold returned, update_chart, bind, gets, ret, raise in Hfig. simpl in Hfig.
    destruct (add_logos (logos st) (filtered_companies f (companies st)))
      as [imgs|e] eqn:Hok; simpl in Hfig; [|discriminate].
    injection Hfig as <-. cbn [images].
    eapply add_logos_incl; [exact Hok|exact Hin|exact Hp|].
    exact (place_logos_in x y (logos st) d 0 i Hn Hl Ht).
Qed.

(* ------------------------------------------------------------------ *)
(** * One request at a time *)

Ltac flags H :=
  unfold only_add, only_delete, no_mutation in H;
  repeat match type of H with
         | _ && _ = true => apply andb_prop in H; destruct H as [H ?]
         end;
  repeat match goal with
         | X : negb _ = true |- _ => apply negb_true_iff in X
         end.

Lemma action_only_add r st :
  only_add (in_triggered_id r) = true ->
  exec (action r) st = exec (handle_add r) st.
Proof.
  intros H. flags H.
  unfold exec, apply_action, bind, when.
  fold (runs_add (in_triggered_id r)) (runs_delete (in_triggered_id r))
       (runs_reset (in_triggered_id r)).
  repeat match goal with X : _ = _ |- _ => rewrite X end.
  now destruct (handle_add r st) as [st1 [[]|e]].
Qed.

Lemma exec_handle_delete triggered_id st company :
  py_eval_index (before_dot triggered_id) = Some company ->
  exec (on_delete triggered_id) st =
    match delete_company company (companies st) with
    | None => st
    | Some cs' =>
        {| companies := cs';
           logo_urls := logo_urls st;
           logos := match pydel company (logos st) with
                    | Some lg' => lg'
                    | None => logos st
                    end |}
    end.
Proof.
  intros He. unfold exec, handle_delete, try_except. rewrite He.
  unfold bind, gets, modify, raise, ret, with_companies, with_logos. simpl.
  destruct (delete_company company (companies st)); simpl; [|reflexivity].
  now destruct (pydel company (logos st)).
Qed.

Lemma action_only_delete r st :
  only_delete (in_triggered_id r) = true ->
  exec (action r) st = exec (on_delete (in_triggered_id r)) st.
Proof.
  intros H. flags H.
  unfold exec, apply_action, bind, when.
  fold (runs_add (in_triggered_id r)) (runs_delete (in_triggered_id r))
       (runs_reset (in_triggered_id r)).
  repeat match goal with X : _ = _ |- _ => rewrite X end.
  unfold ret at 1.
  destruct (handle_delete_cases (in_triggered_id r) st) as (st' & -> & _).
  reflexivity.
Qed.

Lemma action_no_mutation r st :
  no_mutation (in_triggered_id r) = true ->
  action r st = (st, Ok (filter_value (in_dual_use_filter r))).
Proof.
  intros H. flags H.
  unfold apply_action, bind, when.
  fold (runs_add (in_triggered_id r)) (runs_delete (in_triggered_id r))
       (runs_reset (in_triggered_id r)).
  repeat match goal with X : _ = _ |- _ => rewrite X end.
  reflexivity.
Qed.

Lemma delete_company_absent company cs :
  forallb (fun qd : string * pydict details => negb (pycontains company (snd qd))) cs
    = true ->
  delete_company company cs = None.
Proof.
  induction cs as [|[q d] cs IH]; simpl; [reflexivity|].
  intros H. apply andb_prop in H. destruct H as [Hd Hrest].
  apply negb_true_iff in Hd. unfold pycontains in Hd.
  destruct (pyget company d) eqn:G; [discriminate|].
  apply pydel_None in G. now rewrite G, IH.
Qed.

(** Deleting a name right after adding it to a store that did not have it
    gives the quadrants back as they were. *)
Lemma delete_company_after_add company entry q d cs :
  forallb (fun qd : string * pydict details => negb (pycontains company (snd qd))) cs
    = true ->
  pyget q cs = Some d ->
  delete_company company (pyset q (pyset company entry d) cs) = Some cs.
Proof.
  induction cs as [|[q0 d0] cs IH]; simpl; [discriminate|].
  intros H G. apply andb_prop in H. destruct H as [Hd Hrest].
  apply negb_true_iff in Hd. unfold pycontains in Hd.
  destruct (pyget company d0) eqn:G0; [discriminate|].
  destruct (String.eqb q q0); simpl.
  - injection G as <-. now rewrite pydel_pyset_absent.
  - apply pydel_None in G0. now rewrite G0, IH.
Qed.

(** C3 (as amended): in a store that holds [name] in no quadrant and has no
    logo entry for it, a request of the add button for [name] followed by a
    request of the delete button whose token names [name] leaves the
    quadrants and the logos as they were before the two. *)
Theorem add_then_delete_restores st radd rdel name :
  absent name st = true ->
  in_company_name radd = Some name ->
  only_add (in_triggered_id radd) = true ->
  only_delete (in_triggered_id rdel) = true ->
  py_eval_index (before_dot (in_triggered_id rdel)) = Some name ->
  companies (after [radd; rdel] st) = companies st /\
  logos (after [radd; rdel] st) = logos st.
Proof.
  intros Habs Hname Hadd Hdel Heval.
  unfold absent in Habs. apply andb_prop in Habs. destruct Habs as [Hcs Hlg].
  apply negb_true_iff in Hlg. unfold pycontains in Hlg.
  destruct (pyget name (logos st)) eqn:Glg; [discriminate|clear Hlg].
  cbn [run]. rewrite !exec_update_output.
  rewrite (action_only_delete _ _ Hdel), (exec_handle_delete _ _ Heval).
  rewrite (action_only_add _ _ Hadd).
  destruct (handle_add_cases radd st)
    as [[_ E]|[(q & _ & _ & _ & E)|(st1 & A & E)]];
    unfold exec; rewrite E; cbn [fst].
  - rewrite (delete_company_absent _ _ Hcs). auto.
  - rewrite (delete_company_absent _ _ Hcs). auto.
  - destruct A as [name' q url d Hn Hq Hu Hv Hget].
    rewrite Hname in Hn. injection Hn as <-. cbn [companies logos].
    rewrite (delete_company_after_add _ _ _ _ Hcs Hget).
    rewrite (pydel_pyset_absent _ _ _ Glg). auto.
Qed.

Lemma pyget_filtered_companies q cs :
  pyget q (filtered_companies true cs) =
    option_map (filter (fun cd : string * details => dual_use (snd cd))) (pyget q cs).
Proof.
  unfold filtered_companies. induction cs as [|[q0 d0] cs IH]; simpl; [reflexivity|].
  now destruct (String.eqb q q0).
Qed.

(** C5: drawing the chart with the filter on gives the globals back as they
    were, and so does a whole request that only changes the filter; the
    filtered view has the quadrants of the store, in their order, and under
    each quadrant exactly the companies whose [dual_use] is true. *)
Theorem filter_leaves_store st :
  exec (update_chart true) st = st /\
  (forall r, no_mutation (in_triggered_id r) = true -> exec (callback r) st = st) /\
  pykeys (filtered_companies true (companies st)) = pykeys (companies st) /\
  (forall q d, pyget q (companies st) = Some d ->
     exists d',
       pyget q (filtered_companies true (companies st)) = Some d' /\
       d' = filter (fun cd : string * details => dual_use (snd cd)) d /\
       forall c det, In (c, det) d' <-> In (c, det) d /\ dual_use det = true).
Proof.
  split; [apply update_chart_reads|]. split; [|split].
  - intros r H. rewrite exec_update_output. unfold exec.
    now rewrite (action_no_mutation _ _ H).
  - apply pykeys_filtered_companies.
  - intros q d G. eexists. rewrite pyget_filtered_companies, G. simpl.
    split; [reflexivity|]. split; [reflexivity|].
    intros c det. now rewrite filter_In.
Qed.

(** C8: when the name, the quadrant or the logo URL is missing or empty,
    the addition is abandoned: its block and the whole request of the add
    button leave the quadrants, the logo URLs and the logos exactly as they
    were. *)
Theorem incomplete_add_changes_nothing r st :
  add_fields_given r = false ->
  only_add (in_triggered_id r) = true ->
  exec (handle_add r) st = st /\
  companies (exec (callback r) st) = companies st /\
  logo_urls (exec (callback r) st) = logo_urls st /\
  logos (exec (callback r) st) = logos st.
Proof.
  intros Hf Ht.
  assert (Hskip : exec (handle_add r) st = st).
  { unfold exec.
    destruct (handle_add_cases r st)
      as [[_ E]|[(q & Hg & _)|(st1 & A & _)]]; [now rewrite E|congruence|].
    destruct A; congruence. }
  split; [exact Hskip|].
  rewrite exec_update_output, (action_only_add _ _ Ht), Hskip. auto.
Qed.

(** C9: a request of the reset button leaves the four quadrants empty and
    no logo or logo URL, clears the filter value whatever the filter input
    holds, draws the chart without images, lists no company, and returns
    the title it was given. *)
Theorem reset_clears_store r st :
  runs_reset (in_triggered_id r) = true ->
  runs_add (in_triggered_id r) = false ->
  companies (exec (callback r) st) =
    [("Visionaries/Innovators", []); ("Leaders", []);
     ("Niche Players", []); ("Challengers", [])] /\
  logo_urls (exec (callback r) st) = [] /\
  logos (exec (callback r) st) = [] /\
  returned (action r) st = Ok false /\
  exists p,
    returned (callback r) st = Ok p /\
    out_title p = in_title r /\
    images (out_figure p) = [] /\
    out_company_list p =
      [("Visionaries/Innovators", []); ("Leaders", []);
       ("Niche Players", []); ("Challengers", [])].
Proof.
  intros Hr Ha.
  assert (E : action r st = (initial_store, Ok false)).
  { unfold apply_action, bind, when.
    fold (runs_add (in_triggered_id r)) (runs_delete (in_triggered_id r))
         (runs_reset (in_triggered_id r)).
    rewrite Ha, Hr. unfold ret at 1.
    destruct (when_delete_cases (in_triggered_id r) st) as (st2 & Hd & _).
    unfold when in Hd. rewrite Hd. reflexivity. }
  rewrite exec_update_output. unfold exec, returned. rewrite E. cbn [fst snd].
  do 4 (split; [reflexivity|]).
  unfold update_output, bind. rewrite E.
  eexists. split; [reflexivity|]. simpl. auto.
Qed.

(** C10: when the add button is used for a name that a quadrant already
    lists at index [i], under that same quadrant, the quadrant keeps its
    names in the same order, the name is still at index [i] with the new
    flag, every other entry and every other quadrant is as before, the list
    shown has the names in the same order, and the image of the name, when
    its logo is there, is in the cell of index [i]. *)
Theorem readd_keeps_position st r name q url d i det0 :
  reach st ->
  only_add (in_triggered_id r) = true ->
  add_fields_given r = true ->
  in_company_name r = Some name ->
  in_quadrant r = Some q ->
  in_logo_url r = Some url ->
  pyget q (companies st) = Some d ->
  nth_error d i = Some (name, det0) ->
  exists d',
    pyget q (companies (exec (callback r) st)) = Some d' /\
    pykeys d' = pykeys d /\
    nth_error d' i = Some (name, {| dual_use := truthy_list (in_dual_use r) |}) /\
    (forall j, j <> i -> nth_error d' j = nth_error d j) /\
    pykeys (companies (exec (callback r) st)) = pykeys (companies st) /\
    (forall q', q' <> q ->
       pyget q' (companies (exec (callback r) st)) = pyget q' (companies st)) /\
    map item_name (company_items (logos (exec (callback r) st)) d') =
      map item_name (company_items (logos st) d) /\
    (forall x y logo,
       logos_get name (logos (exec (callback r) st)) = Some logo ->
       truthy logo = true ->
       In {| source := logo;
             img_x := x + (Z.of_nat i mod 3) * 10;
             img_y := y - (Z.of_nat i / 3) * 10;
             sizex := 10; sizey := 10 |}
          (place_logos x y (logos (exec (callback r) st)) 0 d')).
Proof.
  intros Hr Ht Hv Hn Hq Hu Hget Hi.
  rewrite exec_update_output, (action_only_add _ _ Ht).
  destruct (handle_add_cases r st)
    as [[Hf _]|[(q0 & _ & Hq0 & Hnone & _)|(st1 & A & E)]]; [congruence| |].
  { rewrite Hq in Hq0. injection Hq0 as <-. congruence. }
  unfold exec. rewrite E. cbn [fst].
  destruct A as [name' q' url' d0 Hn' Hq' Hu' _ Hget'].
  rewrite Hn in Hn'. injection Hn' as <-.
  rewrite Hq in Hq'. injection Hq' as <-.
  rewrite Hget in Hget'. injection Hget' as <-.
  cbn [companies logos].
  set (entry := {| dual_use := truthy_list (in_dual_use r) |}).
  assert (Hnd : NoDup (pykeys d)).
  { pose proof (reachable_names_once Hr) as Hall.
    unfold names_once in Hall. rewrite Forall_forall in Hall.
    pose proof Hget as Hmem. apply pyget_In in Hmem. exact (Hall _ Hmem). }
  assert (Hin : pycontains name d = true).
  { apply pycontains_keys. apply nth_error_In in Hi.
    change name with (fst (name, det0)). now apply in_map. }
  destruct (@nth_error_pyset_present _ name entry det0 d i Hnd Hi) as [Hi' Hother].
  exists (pyset name entry d).
  split; [apply pyget_pyset_same|].
  split; [now apply pykeys_pyset_present|].
  split; [exact Hi'|]. split; [exact Hother|].
  split.
  { apply pykeys_pyset_present. unfold pycontains. now rewrite Hget. }
  split; [intros q' Hne; now apply pyget_pyset_other|].
  split.
  { unfold company_items. rewrite !map_map. cbn [item_name].
    rewrite !map_id. now apply pykeys_pyset_present. }
  intros x y logo Hl Htr.
  exact (place_logos_in x y _ (pyset name entry d) 0 i Hi' Hl Htr).
Qed.

Lemma length_csv_data cs : length (csv_data cs) = total_entities cs.
Proof.
  unfold csv_data, total_entities.
  induction cs as [|[q d] cs IH]; simpl; [reflexivity|].
  now rewrite length_app, length_map, IH.
Qed.

Lemma add_logos_positions lg qs imgs :
  add_logos lg qs = Ok imgs ->
  forall q, In q (pykeys qs) -> pyget q positions <> None.
Proof.
  revert imgs. induction qs as [|[q0 d0] qs IH]; cbn [add_logos];
    intros imgs Hok q Hq; [contradiction|].
  destruct (pyget q0 positions) as [[x0 y0]|] eqn:Hp0; [|discriminate].
  destruct (add_logos lg qs) as [later|e] eqn:Hl; [|discriminate].
  destruct Hq as [<-|Hq]; [cbn [fst]; congruence|].
  eapply IH; eauto.
Qed.

(** Whether the chart is drawn does not depend on the filter. *)
Lemma update_chart_filter_free f g st fig :
  returned (update_chart f) st = Ok fig ->
  exists fig', returned (update_chart g) st = Ok fig'.
Proof.
  unfold returned, update_chart, bind, gets, ret, raise. simpl.
  destruct (add_logos (logos st) (filtered_companies f (companies st)))
    as [imgs|e] eqn:Hok; [|discriminate].
  intros _.
  destruct (add_logos_ok (logos st) (filtered_companies g (companies st)))
    as [imgs' ->]; [|simpl; eauto].
  intros q Hq. rewrite pykeys_filtered_companies in Hq.
  apply (add_logos_positions _ _ Hok).
  now rewrite pykeys_filtered_companies.
Qed.

(** The filter input has no part in what a request does to the globals. *)
Lemma action_with_filter g r st :
  action (with_filter g r) st =
    match action r st with
    | (st', Ok _) =>
        (st', Ok (if runs_reset (in_triggered_id r) then false else filter_value g))
    | (st', Raise e) => (st', Raise e)
    end.
Proof.
  unfold apply_action, bind. cbn [in_triggered_id with_filter in_dual_use_filter].
  fold (runs_reset (in_triggered_id r)).
  change (handle_add (with_filter g r)) with (handle_add r).
  destruct (when (str_in "add-company-button" (in_triggered_id r)) (handle_add r) st)
    as [st1 [[]|e]]; [|reflexivity].
  destruct (when (str_in "delete-button" (in_triggered_id r))
              (on_delete (in_triggered_id r)) st1) as [st2 [[]|e]]; [|reflexivity].
  now destruct (runs_reset (in_triggered_id r)).
Qed.

Lemma update_output_href r st p :
  returned (callback r) st = Ok p ->
  out_href p =
    String.append "data:text/csv;base64,"
      (to_csv_b64 (csv_data (companies (exec (callback r) st)))).
Proof.
  rewrite exec_update_output.
  unfold returned, exec, update_output, bind.
  destruct (action r st) as [st1 [f|e]]; [|discriminate].
  pose proof (update_chart_reads f st1) as Hc. unfold exec in Hc.
  destruct (update_chart f st1) as [st2 [fig|e]]; simpl in Hc; subst st2;
    [|discriminate].
  simpl. now intros [= <-].
Qed.

Lemma exec_action_with_filter g r st :
  exec (action (with_filter g r)) st = exec (action r) st.
Proof.
  unfold exec. rewrite action_with_filter.
  now destruct (action r st) as [st1 [f|e]].
Qed.

Lemma returned_with_filter g r st p :
  returned (callback r) st = Ok p ->
  exists p', returned (callback (with_filter g r)) st = Ok p'.
Proof.
  unfold returned, update_output, bind. rewrite action_with_filter.
  destruct (action r st) as [st1 [f|e]]; [|discriminate].
  set (f' := if runs_reset (in_triggered_id r) then false else filter_value g).
  pose proof (update_chart_reads f st1) as Hc. unfold exec in Hc.
  pose proof (update_chart_reads f' st1) as Hc'. unfold exec in Hc'.
  pose proof (@update_chart_filter_free f f' st1) as Hfree. unfold returned in Hfree.
  destruct (update_chart f st1) as [st2 [fig|e]]; simpl in Hc; subst st2;
    [|discriminate].
  intros _. destruct (Hfree fig eq_refl) as [fig' Hfig'].
  destruct (update_chart f' st1) as [st2 [fig2|e]]; simpl in Hc', Hfig'; subst st2;
    [|discriminate].
  simpl. eauto.
Qed.

(** C7: the export of a request has one record per company of the store as
    the request leaves it, quadrant by quadrant in the order of the store
    and, within a quadrant, in the order of insertion, each with the name,
    the quadrant and the flag; and the same request with any other value of
    the filter input exports the same. *)
Theorem export_lists_every_company r st p :
  returned (callback r) st = Ok p ->
  out_href p =
    String.append "data:text/csv;base64,"
      (to_csv_b64 (csv_data (companies (exec (callback r) st)))) /\
  length (csv_data (companies (exec (callback r) st))) =
    total_entities (companies (exec (callback r) st)) /\
  map (fun row => (Quadrant row, Company row, Dual_Use row))
      (csv_data (companies (exec (callback r) st))) =
    flat_map (fun qd : string * pydict details =>
                map (fun cd : string * details =>
                       (fst qd, fst cd, dual_use (snd cd))) (snd qd))
             (companies (exec (callback r) st)) /\
  forall g,
    exists p',
      returned (callback (with_filter g r)) st = Ok p' /\
      exec (callback (with_filter g r)) st = exec (callback r) st /\
      out_href p' = out_href p.
Proof.
  intros Hp. split; [now apply update_output_href|].
  split; [apply length_csv_data|]. split.
  - unfold csv_data.
    induction (companies (exec (callback r) st)) as [|[q d] cs IH]; simpl;
      [reflexivity|].
    rewrite map_app, IH, map_map. reflexivity.
  - intros g. destruct (returned_with_filter g _ _ Hp) as [p' Hp'].
    assert (Hst : exec (callback (with_filter g r)) st = exec (callback r) st).
    { rewrite !exec_update_output. apply exec_action_with_filter. }
    exists p'. split; [exact Hp'|]. split; [exact Hst|].
    rewrite (update_output_href _ _ Hp'), (update_output_href _ _ Hp).
    now rewrite Hst.
Qed.

End CallbackFacts.

(* ------------------------------------------------------------------ *)
(** * The requests Dash sends *)

Lemma before_dot_plain name rest :
  plain_name name = true ->
  before_dot (String.append name rest) = String.append name (before_dot rest).
Proof.
  induction name as [|c name IH]; cbn [plain_name String.append before_dot];
    [reflexivity|].
  intros H. apply andb_prop in H. destruct H as [H Hrest].
  apply andb_prop in H. destruct H as [_ Hdot].
  apply negb_true_iff in Hdot. rewrite Hdot. now rewrite IH.
Qed.

Lemma read_literal_plain name rest :
  plain_name name = true ->
  read_literal (String.append name (String "034"%char rest)) = Some (name, rest).
Proof.
  induction name as [|c name IH]; cbn [plain_name String.append read_literal].
  - reflexivity.
  - intros H. apply andb_prop in H. destruct H as [H Hrest].
    apply andb_prop in H. destruct H as [H _].
    apply andb_prop in H. destruct H as [Hq Hb].
    apply negb_true_iff in Hq. apply negb_true_iff in Hb.
    now rewrite Hq, Hb, IH.
Qed.

Lemma append_assoc (a b c : string) :
  String.append (String.append a b) c = String.append a (String.append b c).
Proof. induction a as [|x a IH]; simpl; [reflexivity|now rewrite IH]. Qed.

(** The token of a delete button names its company. *)
Lemma literal_index_delete_prop_id name :
  plain_name name = true ->
  literal_index (before_dot (delete_prop_id name)) = Some name.
Proof.
  intros H. unfold delete_prop_id, delete_button_id, literal_index.
  rewrite !append_assoc.
  unfold id_open at 1, dq. simpl.
  rewrite (before_dot_plain _ _ H). simpl.
  rewrite (read_literal_plain _ _ H). reflexivity.
Qed.

(** The ids of the layout: each lets its own block run and no other. *)
Lemma plain_prop_ids :
  only_add "add-company-button.n_clicks" = true /\
  only_delete (delete_prop_id "Acme") = true /\
  runs_reset "reset-graph-button.n_clicks" = true /\
  runs_add "reset-graph-button.n_clicks" = false /\
  runs_delete "reset-graph-button.n_clicks" = false /\
  no_mutation "title-input.value" = true /\
  no_mutation "dual-use-filter.value" = true /\
  no_mutation "." = true.
Proof. repeat split; reflexivity. Qed.

(* ------------------------------------------------------------------ *)
(** * The properties at concrete requests *)

Lemma names_in_one_quadrant_witness :
  never_readds_elsewhere no_encoding literal_index demo_requests initial_store = true /\
  unique_quadrant (companies (run no_encoding literal_index demo_requests initial_store)).
Proof.
  split; [reflexivity|].
  apply (proj2 (names_in_one_quadrant no_encoding literal_index demo_requests)).
  reflexivity.
Defined.

(** Against C1 as stated: after Acme is added under Leaders and then under
    Challengers, both quadrants hold it. *)
Lemma acme_in_two_quadrants :
  ~ unique_quadrant (companies (run no_encoding literal_index moved_requests initial_store)).
Proof.
  intros H.
  specialize (H "Acme" "Leaders" "Challengers" _ _ eq_refl eq_refl eq_refl eq_refl).
  discriminate.
Qed.

Lemma grid_cells_of_chart_witness :
  reachable no_encoding literal_index demo_store3 /\
  exists fig,
    update_chart false demo_store3 = (demo_store3, Ok fig) /\
    In {| source := "data:image/png;base64,WU9ZTw==";
          img_x := 95; img_y := 75; sizex := 10; sizey := 10 |} (images fig).
Proof.
  assert (Hr : reachable no_encoding literal_index demo_store3).
  { unfold demo_store3, demo_store. do 2 apply reachable_after. constructor. }
  split; [exact Hr|].
  destruct (@grid_cells_of_chart no_encoding literal_index demo_store3 false Hr)
    as (fig & Hfig & Hcells & _).
  exists fig. split; [exact Hfig|].
  destruct (Hcells "Leaders"
              [("Acme", {| dual_use := false |}); ("Zeta", {| dual_use := true |});
               ("Yoyo", {| dual_use := false |})]
              75 75 (or_intror (or_introl eq_refl)) eq_refl) as (Hat & _).
  exact (Hat 2%nat "Yoyo" {| dual_use := false |} _ eq_refl eq_refl eq_refl).
Defined.

Lemma add_then_delete_restores_witness :
  absent "Acme" demo_store3 = false /\
  absent "Nova" demo_store3 = true /\
  companies (run no_encoding literal_index
               [click_add (form "Nova" "Leaders" "https://nova.example/logo.png" true None);
                click_delete "Nova" idle_request] demo_store3)
    = companies demo_store3.
Proof.
  split; [reflexivity|]. split; [reflexivity|].
  apply (@add_then_delete_restores no_encoding literal_index demo_store3
           (click_add (form "Nova" "Leaders" "https://nova.example/logo.png" true None))
           (click_delete "Nova" idle_request) "Nova");
    reflexivity.
Defined.

(** Against C3 as stated: Acme is in the store; adding Acme again and then
    deleting it leaves a store without Acme. *)
Lemma readd_then_delete_loses_company :
  companies (run no_encoding literal_index
               [click_add acme_again; click_delete "Acme" acme_again] demo_store)
    <> companies demo_store.
Proof. vm_compute. discriminate. Qed.

(** C4, at the requests where the code departs from it.  One click on the
    delete button of a company called like the add button deletes that
    company and also adds what the form holds; one click on the delete button
    of a company called like the reset button empties the whole store. *)
Theorem delete_click_runs_other_blocks :
  runs_add (delete_prop_id "add-company-button") = true /\
  runs_reset (delete_prop_id "reset-graph-button") = true /\
  companies
    (exec (update_output no_encoding literal_index
             (click_delete "add-company-button" zeta_leaders))
          (run no_encoding literal_index [click_add add_named] initial_store))
    = [("Visionaries/Innovators", []);
       ("Leaders", [("Zeta", {| dual_use := true |})]);
       ("Niche Players", []);
       ("Challengers", [])] /\
  companies
    (run no_encoding literal_index
         [click_add reset_named; click_add acme_challengers] initial_store)
    = [("Visionaries/Innovators", []);
       ("Leaders", [("reset-graph-button", {| dual_use := false |})]);
       ("Niche Players", []);
       ("Challengers", [("Acme", {| dual_use := false |})])] /\
  exec (update_output no_encoding literal_index
          (click_delete "reset-graph-button" acme_challengers))
       (run no_encoding literal_index
            [click_add reset_named; click_add acme_challengers] initial_store)
    = initial_store.
Proof. repeat split; vm_compute; reflexivity. Qed.

Lemma filter_leaves_store_witness :
  no_mutation (in_triggered_id (toggle_filter (Some ["dual_use"]) zeta_leaders)) = true /\
  exec (update_output no_encoding literal_index
          (toggle_filter (Some ["dual_use"]) zeta_leaders)) demo_store3
    = demo_store3.
Proof.
  split; [reflexivity|].
  apply (proj1 (proj2 (filter_leaves_store no_encoding literal_index demo_store3))).
  reflexivity.
Defined.

Lemma unresolved_logo_keeps_slots_witness :
  logo_present (logos_get "Zeta" (logos demo_store3)) = false /\
  exists fig,
    returned (update_chart false) demo_store3 = Ok fig /\
    In {| source := "data:image/png;base64,WU9ZTw==";
          img_x := 95; img_y := 75; sizex := 10; sizey := 10 |} (images fig).
Proof.
  split; [reflexivity|].
  eexists. split; [reflexivity|].
  destruct (@unresolved_logo_keeps_slots demo_store3 false _ "Leaders"
              [("Acme", {| dual_use := false |}); ("Zeta", {| dual_use := true |});
               ("Yoyo", {| dual_use := false |})]
              75 75
              [("Acme", Some "a"); ("Zeta", Some "z"); ("Yoyo", Some "y")]
              2%nat "Yoyo" {| dual_use := false |}
              eq_refl (or_intror (or_introl eq_refl)) eq_refl eq_refl)
    as (im_all & Hnth & Hx & Hy & _ & Hin).
  { intros c' det' [E|[E|[E|[]]]]; injection E as <- <-; reflexivity. }
  specialize (Hin _ eq_refl eq_refl). rewrite Hx, Hy in Hin. exact Hin.
Defined.

Lemma export_lists_every_company_witness :
  exists p,
    returned (update_output no_encoding literal_index
                (toggle_filter (Some ["dual_use"]) zeta_leaders)) demo_store3 = Ok p /\
    length (csv_data (companies
              (exec (update_output no_encoding literal_index
                       (toggle_filter (Some ["dual_use"]) zeta_leaders)) demo_store3)))
      = 3%nat.
Proof.
  eexists. split; [reflexivity|].
  rewrite (proj1 (proj2 (@export_lists_every_company no_encoding literal_index
             (toggle_filter (Some ["dual_use"]) zeta_leaders) demo_store3 _ eq_refl))).
  reflexivity.
Defined.

Lemma incomplete_add_changes_nothing_witness :
  add_fields_given (click_add nova_without_url) = false /\
  only_add (in_triggered_id (click_add nova_without_url)) = true /\
  companies (exec (update_output no_encoding literal_index (click_add nova_without_url))
                  demo_store3)
    = companies demo_store3.
Proof.
  split; [reflexivity|]. split; [reflexivity|].
  apply (proj1 (proj2 (incomplete_add_changes_nothing no_encoding literal_index
           (click_add nova_without_url) demo_store3 eq_refl eq_refl))).
Defined.

Lemma reset_clears_store_witness :
  runs_reset (in_triggered_id (click_reset zeta_leaders)) = true /\
  runs_add (in_triggered_id (click_reset zeta_leaders)) = false /\
  companies (exec (update_output no_encoding literal_index (click_reset zeta_leaders))
                  demo_store3)
    = [("Visionaries/Innovators", []); ("Leaders", []);
       ("Niche Players", []); ("Challengers", [])].
Proof.
  split; [reflexivity|]. split; [reflexivity|].
  apply (proj1 (reset_clears_store no_encoding literal_index
           (click_reset zeta_leaders) demo_store3 eq_refl eq_refl)).
Defined.

Lemma readd_keeps_position_witness :
  reachable no_encoding literal_index demo_store3 /\
  exists d',
    pyget "Leaders"
      (companies (exec (update_output no_encoding literal_index (click_add acme_again))
                       demo_store3)) = Some d' /\
    pykeys d' = ["Acme"; "Zeta"; "Yoyo"] /\
    nth_error d' 0 = Some ("Acme", {| dual_use := true |}).
Proof.
  assert (Hr : reachable no_encoding literal_index demo_store3).
  { unfold demo_store3, demo_store. do 2 apply reachable_after. constructor. }
  split; [exact Hr|].
  destruct (@readd_keeps_position no_encoding literal_index demo_store3
              (click_add acme_again) "Acme" "Leaders" "https://acme.example/new.png"
              [("Acme", {| dual_use := false |}); ("Zeta", {| dual_use := true |});
               ("Yoyo", {| dual_use := false |})]
              0%nat {| dual_use := false |}
              Hr eq_refl eq_refl eq_refl eq_refl eq_refl eq_refl eq_refl)
    as (d' & Hget & Hkeys & Hnth & _).
  exists d'. auto.
Defined.

(* ------------------------------------------------------------------ *)
(** * Further properties of the callback *)

Ltac trigger_flags H :=
  unfold only_add, only_delete, no_mutation in H;
  repeat match type of H with
         | _ && _ = true => apply andb_prop in H; destruct H as [H ?]
         end;
  repeat match goal with
         | X : negb _ = true |- _ => apply negb_true_iff in X
         end.

Section MoreCallbackFacts.
Variable to_csv_b64 : list csv_row -> string.
Variable py_eval_index : string -> option string.

Local Abbreviation on_delete := (handle_delete py_eval_index).
Local Abbreviation action := (apply_action py_eval_index).
Local Abbreviation callback := (update_output to_csv_b64 py_eval_index).
Local Abbreviation after := (run to_csv_b64 py_eval_index).
Local Abbreviation reach := (reachable to_csv_b64 py_eval_index).

(** When the addition does not raise, the three blocks run to their end. *)
Lemma action_returns r st :
  add_raises st r = false ->
  exists f, action r st = (exec (callback r) st, Ok f).
Proof.
  intros Hno. rewrite exec_update_output.
  unfold exec, apply_action, bind.
  fold (runs_add (in_triggered_id r)) (runs_delete (in_triggered_id r))
       (runs_reset (in_triggered_id r)).
  assert (Hadd : exists st1,
            when (runs_add (in_triggered_id r)) (handle_add r) st = (st1, Ok tt)).
  { unfold when. destruct (runs_add (in_triggered_id r)) eqn:Ha; [|eexists; reflexivity].
    destruct (handle_add_cases r st)
      as [[_ E]|[(q & Hg & Hq & Hnone & _)|(st1 & _ & E)]]; eauto.
    exfalso. unfold add_raises in Hno. rewrite Ha, Hg, Hq in Hno.
    unfold pycontains in Hno. rewrite Hnone in Hno. discriminate. }
  destruct Hadd as [st1 ->].
  destruct (when_delete_cases py_eval_index (in_triggered_id r) st1) as (st2 & -> & _).
  destruct (runs_reset (in_triggered_id r)); eexists; reflexivity.
Qed.

(** X1: after any sequence of requests the store has the four quadrants as
    its keys, in the order of the source; the chart is drawn for either
    filter value, and the company list has one section per quadrant in that
    order. *)
Theorem reachable_four_quadrants st :
  reach st ->
  pykeys (companies st) =
    ["Visionaries/Innovators"; "Leaders"; "Niche Players"; "Challengers"] /\
  (forall f, exists fig, returned (update_chart f) st = Ok fig) /\
  exists sections,
    returned generate_company_list st = Ok sections /\
    map fst sections =
      ["Visionaries/Innovators"; "Leaders"; "Niche Players"; "Challengers"].
Proof.
  intros Hr. pose proof (reachable_keys Hr) as Hk.
  split; [exact Hk|]. split.
  - intros f. destruct (update_chart_returns f st Hk) as (imgs & _ & E).
    unfold returned. rewrite E. eexists. reflexivity.
  - eexists. split; [reflexivity|].
    rewrite map_map. cbn [fst]. exact Hk.
Qed.

(** X2: on a store reached by requests, a request whose addition does not
    meet an unknown quadrant returns its four outputs, the title among them
    as it came in; in particular a deletion never makes the callback
    fail. *)
Theorem callback_returns r st :
  reach st ->
  add_raises st r = false ->
  exists p,
    returned (callback r) st = Ok p /\
    out_title p = in_title r /\
    map fst (out_company_list p) =
      ["Visionaries/Innovators"; "Leaders"; "Niche Players"; "Challengers"].
Proof.
  intros Hr Hno.
  destruct (action_returns r st Hno) as [f E].
  assert (Hk : pykeys (companies (exec (callback r) st)) = pykeys empty_companies).
  { apply request_keys. exact (reachable_keys Hr). }
  destruct (update_chart_returns f _ Hk) as (imgs & _ & Hc).
  unfold returned, update_output, bind. rewrite E, Hc.
  eexists. split; [reflexivity|]. cbn [out_title out_company_list].
  split; [reflexivity|].
  rewrite map_map. cbn [fst]. exact Hk.
Qed.

(** X3: an addition whose fields are given but whose quadrant is no key of
    the store raises [KeyError] for that quadrant before anything is
    assigned: the callback returns nothing and the store is as it was. *)
Theorem unknown_quadrant_raises r st q :
  runs_add (in_triggered_id r) = true ->
  add_fields_given r = true ->
  in_quadrant r = Some q ->
  pyget q (companies st) = None ->
  callback r st = (st, Raise (KeyError q)).
Proof.
  intros Ha Hg Hq Hnone.
  assert (E : handle_add r st = (st, Raise (KeyError q))).
  { destruct (handle_add_cases r st)
      as [[Hf _]|[(q' & _ & Hq' & _ & E)|(st1 & A & _)]]; [congruence| |].
    - rewrite Hq in Hq'. now injection Hq' as <-.
    - destruct A as [name q' url d _ Hq' _ _ Hget]. congruence. }
  unfold update_output, apply_action, bind, when.
  fold (runs_add (in_triggered_id r)). now rewrite Ha, E.
Qed.

(** A property of the store that holds at the start and that the addition
    of the request and every deletion preserve is preserved by the whole
    request. *)
Lemma request_preserves_store (P : store -> Prop) r st :
  P initial_store ->
  (forall st1, added r st st1 -> P st -> P st1) ->
  (forall company st1 st2, deleted company st1 st2 -> P st1 -> P st2) ->
  P st -> P (exec (callback r) st).
Proof.
  intros H0 Hadd Hdel HP. rewrite exec_update_output.
  destruct (apply_action_cases py_eval_index r st) as (st1 & st2 & H1 & H2 & H3).
  assert (P1 : P st1).
  { destruct H1 as [->|[Ha A]]; auto. }
  assert (P2 : P st2).
  { destruct H2 as [->|(_ & company & _ & D)]; eauto. }
  destruct H3 as [->|[_ ->]]; auto.
Qed.

Lemma pyget_pydel_other {V : Type} k x (d d' : pydict V) :
  pydel k d = Some d' -> x <> k -> pyget x d' = pyget x d.
Proof.
  revert d'. induction d as [|[k0 v0] d IH]; simpl; intros d' Hd Hne; [discriminate|].
  destruct (String.eqb_spec k k0).
  - injection Hd as <-. subst k0. destruct (String.eqb_spec x k); congruence.
  - destruct (pydel k d) as [r0|]; [|discriminate]. injection Hd as <-.
    simpl. destruct (String.eqb x k0); auto.
Qed.

Lemma pyget_pydel_same {V : Type} k (d d' : pydict V) :
  pydel k d = Some d' -> NoDup (pykeys d) -> pyget k d' = None.
Proof.
  revert d'. induction d as [|[k0 v0] d IH]; simpl; intros d' Hd Hnd; [discriminate|].
  inversion Hnd as [|? ? Hnin Hnd']; subst.
  destruct (String.eqb_spec k k0).
  - injection Hd as <-. subst k0. now apply pyget_None_keys.
  - destruct (pydel k d) as [r0|] eqn:E; [|discriminate]. injection Hd as <-.
    simpl. destruct (String.eqb_spec k k0); [contradiction|]. now apply IH.
Qed.

Lemma held_iff name cs :
  held name cs = true <->
  exists q d, In (q, d) cs /\ pycontains name d = true.
Proof.
  unfold held. rewrite existsb_exists. split.
  - intros ([q d] & Hin & Hc). eauto.
  - intros (q & d & Hin & Hc). exists (q, d). auto.
Qed.

Lemma held_false name cs :
  held name cs = false <->
  forallb (fun qd : string * pydict details => negb (pycontains name (snd qd))) cs = true.
Proof.
  unfold held. induction cs as [|[q d] cs IH]; simpl; [tauto|].
  destruct (pycontains name d); simpl; [split; discriminate|exact IH].
Qed.

(** Assigning to a key that is there replaces the first entry of that key
    and keeps the others. *)
Lemma In_pyset_present {V : Type} q (d d' : V) x (cs : pydict V) :
  pyget q cs = Some d ->
  In (q, d') (pyset q d' cs) /\
  (In x cs -> x = (q, d) \/ In x (pyset q d' cs)) /\
  (In x (pyset q d' cs) -> x = (q, d') \/ In x cs).
Proof.
  induction cs as [|[q0 d0] cs IH]; simpl; [discriminate|].
  destruct (String.eqb_spec q q0); intros G.
  - injection G as ->. subst q0. simpl. intuition.
  - destruct (IH G) as (I1 & I2 & I3). simpl. intuition.
Qed.

Lemma In_pyget_NoDup {V : Type} q (d : V) (cs : pydict V) :
  NoDup (pykeys cs) -> In (q, d) cs -> pyget q cs = Some d.
Proof.
  induction cs as [|[q0 d0] cs IH]; simpl; intros Hnd Hin; [contradiction|].
  inversion Hnd as [|? ? Hnin Hnd']; subst.
  destruct Hin as [E|Hin].
  - injection E as -> ->. now rewrite String.eqb_refl.
  - destruct (String.eqb_spec q q0).
    + subst q0. exfalso. apply Hnin. change q with (fst (q, d)). now apply in_map.
    + auto.
Qed.

(** The deletion changes one entry of the store: the first whose mapping
    has the company. *)
Lemma delete_company_shape company cs cs' :
  delete_company company cs = Some cs' ->
  exists l1 q0 d0 d0' l2,
    cs = l1 ++ (q0, d0) :: l2 /\ cs' = l1 ++ (q0, d0') :: l2 /\
    pydel company d0 = Some d0' /\
    Forall (fun qd : string * pydict details => pycontains company (snd qd) = false) l1.
Proof.
  revert cs'. induction cs as [|[q d] cs IH]; simpl; intros cs'; [discriminate|].
  destruct (pydel company d) as [d'|] eqn:E.
  - intros [= <-]. exists [], q, d, d', cs. auto.
  - destruct (delete_company company cs) as [rest'|]; [|discriminate].
    intros [= <-].
    destruct (IH rest' eq_refl) as (l1 & q0 & d0 & d0' & l2 & -> & -> & Hd & Hall).
    exists ((q, d) :: l1), q0, d0, d0', l2. repeat split; auto.
    constructor; [|exact Hall]. simpl. unfold pycontains.
    apply pydel_None in E. now rewrite E.
Qed.

(** In a store whose quadrants are distinct keys, that lists no name twice
    and holds every name in one quadrant only, a deleted company is held by
    no quadrant afterwards. *)
Lemma delete_company_removes company cs cs' :
  NoDup (pykeys cs) -> names_once cs -> unique_quadrant cs ->
  delete_company company cs = Some cs' ->
  held company cs' = false.
Proof.
  intros Hk Hn Hu Hd.
  destruct (held company cs') eqn:Hh; [exfalso|reflexivity].
  apply held_iff in Hh. destruct Hh as (q & d' & Hin & Hc).
  assert (Hk' : NoDup (pykeys cs')) by (now rewrite (delete_company_keys _ _ Hd)).
  pose proof (In_pyget_NoDup _ _ _ Hk' Hin) as G'.
  destruct (delete_company_pyget _ _ _ Hd G') as (d & G & [->|Hdel]).
  - destruct (delete_company_shape _ _ Hd)
      as (l1 & q0 & d0 & d0' & l2 & Ecs & Ecs' & Hd0 & _).
    assert (G0 : pyget q0 cs = Some d0).
    { apply In_pyget_NoDup; [exact Hk|]. rewrite Ecs. apply in_or_app. right. now left. }
    assert (C0 : pycontains company d0 = true).
    { unfold pycontains. destruct (pyget company d0) eqn:X; [reflexivity|].
      apply pydel_None in X. congruence. }
    assert (q = q0) by exact (Hu company q q0 d d0 G G0 Hc C0). subst q0.
    assert (G0' : pyget q cs' = Some d0').
    { apply In_pyget_NoDup; [exact Hk'|]. rewrite Ecs'. apply in_or_app. right. now left. }
    rewrite G' in G0'. injection G0' as ->.
    rewrite G in G0. injection G0 as ->.
    assert (Hnd : NoDup (pykeys d0)).
    { unfold names_once in Hn. rewrite Forall_forall in Hn.
      pose proof G as Gin. apply pyget_In in Gin. exact (Hn _ Gin). }
    pose proof (pyget_pydel_same _ _ Hd0 Hnd) as X.
    unfold pycontains in Hc. now rewrite X in Hc.
  - assert (Hnd : NoDup (pykeys d)).
    { unfold names_once in Hn. rewrite Forall_forall in Hn.
      pose proof G as Gin. apply pyget_In in Gin. exact (Hn _ Gin). }
    pose proof (pyget_pydel_same _ _ Hdel Hnd) as X.
    unfold pycontains in Hc. now rewrite X in Hc.
Qed.

Lemma Forall_pydel {V : Type} (P : string * V -> Prop) k (d d' : pydict V) :
  pydel k d = Some d' -> Forall P d -> Forall P d'.
Proof.
  revert d'. induction d as [|[k0 v0] d IH]; simpl; intros d' Hd H; [discriminate|].
  inversion H as [|? ? H0 Hrest]; subst.
  destruct (String.eqb k k0).
  - now injection Hd as <-.
  - destruct (pydel k d) as [r0|]; [|discriminate]. injection Hd as <-.
    constructor; auto.
Qed.

Lemma data_url_fetch_logo http_png company_name url :
  data_url (fetch_logo http_png company_name url) = true.
Proof.
  unfold fetch_logo. destruct (http_png url) as [enc|]; [|reflexivity].
  simpl. now destruct enc.
Qed.

Lemma logos_sound_added r st st1 :
  added r st st1 -> logos_sound st -> logos_sound st1.
Proof.
  intros [name q url d Hn Hq Hu Hv Hget] (Hnd & Hdata & Hown).
  unfold logos_sound. cbn [logos companies logo_urls].
  split; [now apply NoDup_pykeys_pyset|]. split.
  - apply Forall_pyset; [|exact Hdata].
    intros k'. apply data_url_fetch_logo.
  - intros c Hc. apply pycontains_keys in Hc. apply pykeys_pyset in Hc.
    set (e := {| dual_use := truthy_list (in_dual_use r) |}).
    destruct (@In_pyset_present _ q d (pyset name e d) (q, d) (companies st) Hget)
      as (Hnew & _).
    destruct Hc as [->|Hc].
    + split.
      * apply held_iff. exists q, (pyset name e d). split; [exact Hnew|].
        apply pycontains_keys, pykeys_pyset. now left.
      * apply pycontains_keys, pykeys_pyset. now left.
    + apply pycontains_keys in Hc. destruct (Hown c Hc) as [Hheld Hurl]. split.
      * apply held_iff in Hheld. destruct Hheld as (q1 & d1 & Hin & Hc1).
        apply held_iff.
        destruct (@In_pyset_present _ q d (pyset name e d) (q1, d1) (companies st) Hget)
          as (_ & Hold & _).
        destruct (Hold Hin) as [E|Hin'].
        -- injection E as -> ->. exists q, (pyset name e d). split; [exact Hnew|].
           apply pycontains_keys, pykeys_pyset. right. now apply pycontains_keys.
        -- eauto.
      * apply pycontains_keys, pykeys_pyset. right. now apply pycontains_keys.
Qed.

Lemma logos_sound_deleted company st1 st2 :
  deleted company st1 st2 -> logos_sound st1 -> logos_sound st2.
Proof.
  intros [cs' lg' Hd Hlg] (Hnd & Hdata & Hown).
  unfold logos_sound. cbn [logos companies logo_urls].
  assert (Hsub : forall c, pycontains c lg' = true ->
                   pycontains c (logos st1) = true /\ c <> company).
  { intros c Hc. subst lg'. destruct (pydel company (logos st1)) as [l|] eqn:E.
    - split; [eauto using pydel_contains|].
      intros ->. unfold pycontains in Hc.
      now rewrite (pyget_pydel_same _ _ E Hnd) in Hc.
    - split; [exact Hc|]. intros ->. apply pydel_None in E.
      unfold pycontains in Hc. now rewrite E in Hc. }
  split; [|split].
  - subst lg'. destruct (pydel company (logos st1)) as [l|] eqn:E; [|exact Hnd].
    eauto using NoDup_pykeys_pydel.
  - subst lg'. destruct (pydel company (logos st1)) as [l|] eqn:E; [|exact Hdata].
    eauto using Forall_pydel.
  - intros c Hc. destruct (Hsub c Hc) as [Hc1 Hne].
    destruct (Hown c Hc1) as [Hheld Hurl]. split; [|exact Hurl].
    apply held_iff in Hheld. destruct Hheld as (q1 & d1 & Hin & Hc2).
    apply held_iff.
    destruct (delete_company_shape _ _ Hd)
      as (l1 & q0 & d0 & d0' & l2 & Ecs & -> & Hd0 & _).
    rewrite Ecs in Hin. apply in_app_or in Hin.
    destruct Hin as [Hin|[E|Hin]].
    + exists q1, d1. split; [apply in_or_app; now left|exact Hc2].
    + injection E as <- <-. exists q0, d0'. split; [apply in_or_app; right; now left|].
      unfold pycontains in *. now rewrite (pyget_pydel_other _ Hd0 Hne).
    + exists q1, d1. split; [apply in_or_app; right; now right|exact Hc2].
Qed.

Lemma reachable_logos_sound st : reach st -> logos_sound st.
Proof.
  induction 1 as [|st r Hr IH].
  - split; [constructor|]. split; [constructor|]. intros c Hc. discriminate.
  - apply request_preserves_store; auto.
    + split; [constructor|]. split; [constructor|]. intros c Hc. discriminate.
    + intros st1 A. now apply logos_sound_added with (r := r).
    + intros company st1 st2 D. now apply logos_sound_deleted with (company := company).
Qed.

Lemma delete_company_None company cs :
  delete_company company cs = None -> held company cs = false.
Proof.
  unfold held. induction cs as [|[q d] cs IH]; simpl; [reflexivity|].
  destruct (pydel company d) as [d'|] eqn:E; [discriminate|].
  destruct (delete_company company cs); [discriminate|]. intros _.
  apply pydel_None in E. unfold pycontains at 1. rewrite E. simpl. now apply IH.
Qed.

Lemma delete_company_pyget_before company cs cs' q d :
  delete_company company cs = Some cs' ->
  pyget q cs = Some d ->
  exists d', pyget q cs' = Some d' /\
             (d' = d \/ pydel company d = Some d').
Proof.
  revert cs'. induction cs as [|[q0 d0] cs IH]; simpl; intros cs'; [discriminate|].
  destruct (pydel company d0) as [d0'|] eqn:E.
  - intros [= <-]. simpl. destruct (String.eqb q q0).
    + intros [= <-]. eauto.
    + intros H. eauto.
  - destruct (delete_company company cs) as [rest'|]; [|discriminate].
    intros [= <-]. simpl. destruct (String.eqb q q0).
    + intros [= <-]. eauto.
    + intros H. eapply IH; eauto.
Qed.

(** A request of a delete button whose token names nothing the quadrants
    hold, or cannot be evaluated, changes nothing. *)
Lemma exec_delete_absent r st :
  only_delete (in_triggered_id r) = true ->
  (forall name, py_eval_index (before_dot (in_triggered_id r)) = Some name ->
                held name (companies st) = false) ->
  exec (callback r) st = st.
Proof.
  intros Ht Habs. rewrite exec_update_output, (action_only_delete _ _ _ Ht).
  destruct (py_eval_index (before_dot (in_triggered_id r))) as [name|] eqn:He.
  - rewrite (exec_handle_delete _ _ _ He).
    pose proof (Habs name eq_refl) as Hh. apply held_false in Hh.
    now rewrite (delete_company_absent _ _ Hh).
  - unfold exec, handle_delete, try_except. now rewrite He.
Qed.

(** X4: a click on a delete button whose token names a company that no
    quadrant holds, or whose token cannot be evaluated, is no error and
    leaves the three dictionaries as they were. *)
Theorem delete_unknown_changes_nothing r st :
  reach st ->
  only_delete (in_triggered_id r) = true ->
  (forall name, py_eval_index (before_dot (in_triggered_id r)) = Some name ->
                held name (companies st) = false) ->
  exec (callback r) st = st /\
  exists p, returned (callback r) st = Ok p.
Proof.
  intros Hr Ht Habs. split; [now apply exec_delete_absent|].
  assert (Hno : add_raises st r = false).
  { unfold add_raises. trigger_flags Ht. now rewrite Ht. }
  destruct (action_returns r st Hno) as [f E].
  assert (Hk : pykeys (companies (exec (callback r) st)) = pykeys empty_companies).
  { apply request_keys. exact (reachable_keys Hr). }
  destruct (update_chart_returns f _ Hk) as (imgs & _ & Hc).
  unfold returned, update_output, bind. rewrite E, Hc.
  eexists. reflexivity.
Qed.

(** After the deletion of a company that one quadrant only holds, no
    quadrant holds it and it has no logo entry. *)
Lemma exec_delete_removes r st name :
  reach st ->
  unique_quadrant (companies st) ->
  only_delete (in_triggered_id r) = true ->
  py_eval_index (before_dot (in_triggered_id r)) = Some name ->
  held name (companies (exec (callback r) st)) = false /\
  pycontains name (logos (exec (callback r) st)) = false.
Proof.
  intros Hr Hu Ht He.
  destruct (reachable_logos_sound Hr) as (Hnd & _ & Hown).
  rewrite exec_update_output, (action_only_delete _ _ _ Ht),
    (exec_handle_delete _ _ _ He).
  destruct (delete_company name (companies st)) as [cs'|] eqn:Hd.
  - cbn [companies logos]. split.
    + apply (@delete_company_removes name (companies st) cs'); auto.
      * rewrite (reachable_keys Hr). repeat constructor; simpl; intuition discriminate.
      * exact (reachable_names_once Hr).
    + unfold pycontains.
      destruct (pydel name (logos st)) as [l|] eqn:E.
      * now rewrite (pyget_pydel_same _ _ E Hnd).
      * apply pydel_None in E. now rewrite E.
  - pose proof (delete_company_None _ _ Hd) as Hh. split; [exact Hh|].
    destruct (pycontains name (logos st)) eqn:C; [|reflexivity].
    destruct (Hown name C) as [Hheld _]. congruence.
Qed.

(** X5: in a store reached by requests in which every name is in one
    quadrant only, a click on the delete button of a company leaves it in no
    quadrant and without logo entry, keeps every other entry of every
    quadrant and every other logo, and keeps all the logo URLs, the one of
    the deleted company too. *)
Theorem delete_removes_company r st name :
  reach st ->
  unique_quadrant (companies st) ->
  only_delete (in_triggered_id r) = true ->
  py_eval_index (before_dot (in_triggered_id r)) = Some name ->
  held name (companies (exec (callback r) st)) = false /\
  pycontains name (logos (exec (callback r) st)) = false /\
  logo_urls (exec (callback r) st) = logo_urls st /\
  (forall q d, pyget q (companies st) = Some d ->
     exists d', pyget q (companies (exec (callback r) st)) = Some d' /\
                forall c, c <> name -> pyget c d' = pyget c d) /\
  (forall c, c <> name ->
     pyget c (logos (exec (callback r) st)) = pyget c (logos st)).
Proof.
  intros Hr Hu Ht He.
  destruct (@exec_delete_removes r st name Hr Hu Ht He) as [H1 H2].
  split; [exact H1|]. split; [exact H2|].
  rewrite exec_update_output, (action_only_delete _ _ _ Ht),
    (exec_handle_delete _ _ _ He).
  destruct (delete_company name (companies st)) as [cs'|] eqn:Hd;
    cbn [companies logos logo_urls].
  - split; [reflexivity|]. split.
    + intros q d G.
      destruct (delete_company_pyget_before _ _ _ Hd G) as (d' & G' & [->|Hdel]).
      * eauto.
      * exists d'. split; [exact G'|]. intros c Hne.
        now apply (pyget_pydel_other _ Hdel).
    + intros c Hne. destruct (pydel name (logos st)) as [l|] eqn:E; [|reflexivity].
      now apply (pyget_pydel_other _ E).
  - split; [reflexivity|]. split; [|reflexivity]. intros q d G. eauto.
Qed.

(** X6: under the same conditions a second click on the same delete button
    changes nothing more: deleting twice is deleting once. *)
Theorem delete_twice_is_delete_once r st name :
  reach st ->
  unique_quadrant (companies st) ->
  only_delete (in_triggered_id r) = true ->
  py_eval_index (before_dot (in_triggered_id r)) = Some name ->
  after [r; r] st = after [r] st.
Proof.
  intros Hr Hu Ht He. cbn [run].
  apply exec_delete_absent; [exact Ht|].
  intros name' He'. rewrite He in He'. injection He' as <-.
  exact (proj1 (@exec_delete_removes r st name Hr Hu Ht He)).
Qed.

(** X7: in a store reached by requests every logo entry is [None] or a PNG
    data URL, hence not empty: a stored logo is always shown, and every
    image source of the chart is such a data URL. *)
Theorem chart_sources_are_data_urls st :
  reach st ->
  (forall c logo, logos_get c (logos st) = Some logo ->
     String.prefix "data:image/png;base64," logo = true /\ truthy logo = true) /\
  (forall f fig im,
     returned (update_chart f) st = Ok fig -> In im (images fig) ->
     String.prefix "data:image/png;base64," (source im) = true).
Proof.
  intros Hr. destruct (reachable_logos_sound Hr) as (_ & Hdata & _).
  rewrite Forall_forall in Hdata.
  assert (Hlogo : forall c logo, logos_get c (logos st) = Some logo ->
            String.prefix "data:image/png;base64," logo = true /\ truthy logo = true).
  { intros c logo Hl. unfold logos_get in Hl.
    destruct (pyget c (logos st)) as [o|] eqn:G; [|discriminate]. subst o.
    apply pyget_In in G. pose proof (Hdata _ G) as Hp. cbn [snd data_url] in Hp.
    split; [exact Hp|]. destruct logo; [discriminate|reflexivity]. }
  split; [exact Hlogo|].
  intros f fig im Hfig Hin.
  unfold returned, update_chart, bind, gets, ret, raise in Hfig. simpl in Hfig.
  destruct (add_logos (logos st) (filtered_companies f (companies st)))
    as [imgs|e] eqn:Hok; simpl in Hfig; [|discriminate].
  injection Hfig as <-. cbn [images] in Hin.
  destruct (@add_logos_inv _ _ _ _ Hok Hin) as (q & d & x & y & _ & _ & Him).
  apply place_logos_inv in Him.
  destruct Him as (i & c & det & _ & Hl & _).
  exact (proj1 (Hlogo _ _ Hl)).
Qed.

(** X8: in a store reached by requests every logo entry belongs to a
    company that some quadrant lists, and that company has a logo URL. *)
Theorem logos_belong_to_listed_companies st c :
  reach st ->
  pycontains c (logos st) = true ->
  held c (companies st) = true /\ pycontains c (logo_urls st) = true.
Proof.
  intros Hr Hc. destruct (reachable_logos_sound Hr) as (_ & _ & Hown). auto.
Qed.


Lemma pydel_middle {V : Type} k (v : V) (d1 d2 : pydict V) :
  pyget k d1 = None -> pydel k (d1 ++ (k, v) :: d2) = Some (d1 ++ d2).
Proof.
  induction d1 as [|[k0 v0] d1 IH]; simpl.
  - now rewrite String.eqb_refl.
  - destruct (String.eqb k k0); [discriminate|]. intros H. now rewrite IH.
Qed.

Lemma csv_data_In cs q d name entry :
  In (q, d) cs -> In (name, entry) d ->
  In {| Company := name; Quadrant := q; Dual_Use := dual_use entry |} (csv_data cs).
Proof.
  intros Hq Hn. unfold csv_data. apply in_flat_map.
  exists (q, d). split; [exact Hq|]. cbn [fst snd].
  apply in_map_iff. exists (name, entry). auto.
Qed.

(** What a request of the add button with its fields given makes of a
    store that has the quadrant. *)
Lemma exec_add_given r st name q url d :
  only_add (in_triggered_id r) = true ->
  add_fields_given r = true ->
  in_company_name r = Some name ->
  in_quadrant r = Some q ->
  in_logo_url r = Some url ->
  pyget q (companies st) = Some d ->
  exec (callback r) st =
    {| companies :=
         pyset q (pyset name {| dual_use := truthy_list (in_dual_use r) |} d)
               (companies st);
       logo_urls := pyset name url (logo_urls st);
       logos := pyset name (fetch_logo (in_http_png r) name url) (logos st) |}.
Proof.
  intros Ht Hv Hn Hq Hu Hget.
  rewrite exec_update_output, (action_only_add _ _ _ Ht).
  destruct (handle_add_cases r st)
    as [[Hf _]|[(q0 & _ & Hq0 & Hnone & _)|(st1 & A & E)]]; [congruence| |].
  { rewrite Hq in Hq0. injection Hq0 as <-. congruence. }
  unfold exec. rewrite E. cbn [fst].
  destruct A as [name' q' url' d0 Hn' Hq' Hu' _ Hget'].
  congruence.
Qed.

(** X9: a request of the add button with its three fields given, for a
    quadrant of the store, stores the company: the quadrant maps the name to
    the flag of the form, the logo entry is what the fetch gave ([None] when
    it failed, and the company is stored all the same), the URL is kept, and
    the export has the row of the company. *)
Theorem add_stores_company r st name q url d :
  only_add (in_triggered_id r) = true ->
  add_fields_given r = true ->
  in_company_name r = Some name ->
  in_quadrant r = Some q ->
  in_logo_url r = Some url ->
  pyget q (companies st) = Some d ->
  exists d',
    pyget q (companies (exec (callback r) st)) = Some d' /\
    pyget name d' = Some {| dual_use := truthy_list (in_dual_use r) |} /\
    pyget name (logos (exec (callback r) st)) =
      Some (fetch_logo (in_http_png r) name url) /\
    (in_http_png r url = None ->
     logos_get name (logos (exec (callback r) st)) = None) /\
    pyget name (logo_urls (exec (callback r) st)) = Some url /\
    In {| Company := name; Quadrant := q;
          Dual_Use := truthy_list (in_dual_use r) |}
       (csv_data (companies (exec (callback r) st))).
Proof.
  intros Ht Hv Hn Hq Hu Hget.
  rewrite (exec_add_given _ _ Ht Hv Hn Hq Hu Hget). cbn [companies logos logo_urls].
  set (e := {| dual_use := truthy_list (in_dual_use r) |}).
  exists (pyset name e d).
  split; [apply pyget_pyset_same|]. split; [apply pyget_pyset_same|].
  split; [apply pyget_pyset_same|]. split.
  - intros Hfail. unfold logos_get. rewrite pyget_pyset_same.
    unfold fetch_logo. now rewrite Hfail.
  - split; [apply pyget_pyset_same|].
    apply (@csv_data_In _ q (pyset name e d) name e).
    + apply pyget_In, pyget_pyset_same.
    + apply pyget_In, pyget_pyset_same.
Qed.

(** X10: a company whose name is new to the quadrant goes last in it: the
    mapping of the quadrant is the old one followed by the new entry, so the
    company gets the index that is the number of companies the quadrant had,
    and the other quadrants are as before. *)
Theorem add_new_name_goes_last r st name q url d :
  only_add (in_triggered_id r) = true ->
  add_fields_given r = true ->
  in_company_name r = Some name ->
  in_quadrant r = Some q ->
  in_logo_url r = Some url ->
  pyget q (companies st) = Some d ->
  pyget name d = None ->
  pyget q (companies (exec (callback r) st)) =
    Some (d ++ [(name, {| dual_use := truthy_list (in_dual_use r) |})]) /\
  nth_error (d ++ [(name, {| dual_use := truthy_list (in_dual_use r) |})]) (length d) =
    Some (name, {| dual_use := truthy_list (in_dual_use r) |}) /\
  (forall q', q' <> q ->
     pyget q' (companies (exec (callback r) st)) = pyget q' (companies st)).
Proof.
  intros Ht Hv Hn Hq Hu Hget Hnew.
  rewrite (exec_add_given _ _ Ht Hv Hn Hq Hu Hget). cbn [companies].
  split; [|split].
  - rewrite pyget_pyset_same. now rewrite (pyset_absent _ _ _ Hnew).
  - rewrite nth_error_app2 by lia. now rewrite Nat.sub_diag.
  - intros q' Hne. now apply pyget_pyset_other.
Qed.


(** X12: deleting closes the gap.  When the quadrant that holds the company
    lists it between the entries [d1] and [d2], it lists [d1] followed by
    [d2] after the click on the delete button: the entries before keep
    their index and every entry after moves one index down. *)
Theorem delete_closes_gap r st name q d1 entry d2 :
  reach st ->
  unique_quadrant (companies st) ->
  only_delete (in_triggered_id r) = true ->
  py_eval_index (before_dot (in_triggered_id r)) = Some name ->
  pyget q (companies st) = Some (d1 ++ (name, entry) :: d2) ->
  pyget q (companies (exec (callback r) st)) = Some (d1 ++ d2) /\
  (forall j, (j < length d1)%nat ->
     nth_error (d1 ++ d2) j = nth_error (d1 ++ (name, entry) :: d2) j) /\
  (forall j, (length d1 <= j)%nat ->
     nth_error (d1 ++ d2) j = nth_error (d1 ++ (name, entry) :: d2) (S j)).
Proof.
  intros Hr Hu Ht He Hget.
  assert (Hnd : NoDup (pykeys (d1 ++ (name, entry) :: d2))).
  { pose proof (reachable_names_once Hr) as Hall.
    unfold names_once in Hall. rewrite Forall_forall in Hall.
    pose proof Hget as Hmem. apply pyget_In in Hmem. exact (Hall _ Hmem). }
  assert (Hd1 : pyget name d1 = None).
  { apply pyget_None_keys. intros Hin. unfold pykeys in Hnd.
    rewrite map_app in Hnd. apply NoDup_remove_2 in Hnd.
    apply Hnd. apply in_or_app. now left. }
  pose proof (pydel_middle name entry d1 d2 Hd1) as Hdel.
  split; [|split].
  - destruct (@exec_delete_removes r st name Hr Hu Ht He) as [Hgone _].
    rewrite exec_update_output, (action_only_delete _ _ _ Ht),
      (exec_handle_delete _ _ _ He) in *.
    destruct (delete_company name (companies st)) as [cs'|] eqn:Hd.
    + cbn [companies] in *.
      destruct (delete_company_pyget_before _ _ _ Hd Hget) as (d' & G' & [->|Hdel']).
      * exfalso. apply pyget_In in G'.
        assert (held name cs' = true); [|congruence].
        apply held_iff. exists q, (d1 ++ (name, entry) :: d2). split; [exact G'|].
        unfold pycontains. destruct (pyget name (d1 ++ (name, entry) :: d2)) eqn:X;
          [reflexivity|]. apply pydel_None in X. congruence.
      * congruence.
    + exfalso. apply pyget_In in Hget.
      assert (held name (companies st) = true); [|congruence].
      apply held_iff. exists q, (d1 ++ (name, entry) :: d2). split; [exact Hget|].
      unfold pycontains. destruct (pyget name (d1 ++ (name, entry) :: d2)) eqn:X;
        [reflexivity|]. apply pydel_None in X. congruence.
  - intros j Hj. now rewrite !nth_error_app1 by lia.
  - intros j Hj. rewrite !nth_error_app2 by lia.
    replace (S j - length d1)%nat with (S (j - length d1)) by lia. reflexivity.
Qed.

(* ------------------------------------------------------------------ *)
(** * Further properties of the chart *)

Lemma length_place_logos x y lg d : forall i0,
  length (place_logos x y lg i0 d) = length (with_logo lg d).
Proof.
  induction d as [|[c det] d IH]; simpl; intros i0; [reflexivity|].
  unfold logo_present.
  destruct (logos_get c lg) as [logo|]; [|apply IH].
  destruct (truthy logo); simpl; now rewrite IH.
Qed.

Lemma length_add_logos lg qs imgs :
  add_logos lg qs = Ok imgs -> length imgs = logo_count lg qs.
Proof.
  revert imgs. induction qs as [|[q d] qs IH]; cbn [add_logos logo_count fold_right];
    intros imgs Hok.
  - now injection Hok as <-.
  - destruct (pyget q positions) as [[x y]|]; [|discriminate].
    destruct (add_logos lg qs) as [later|e]; [|discriminate].
    injection Hok as <-. rewrite length_app, length_place_logos.
    cbn [snd]. now rewrite (IH later eq_refl).
Qed.

Lemma logo_count_le lg cs : (logo_count lg cs <= total_entities cs)%nat.
Proof.
  unfold logo_count, total_entities.
  induction cs as [|[q d] cs IH]; cbn [fold_right snd]; [lia|].
  unfold with_logo at 1.
  pose proof (filter_length_le
                (fun cd : string * details => logo_present (logos_get (fst cd) lg)) d).
  lia.
Qed.

Lemma total_entities_filtered f cs :
  (total_entities (filtered_companies f cs) <= total_entities cs)%nat.
Proof.
  unfold filtered_companies. destruct f; [|lia].
  unfold total_entities.
  induction cs as [|[q d] cs IH]; cbn [fold_right map fst snd]; [lia|].
  pose proof (filter_length_le (fun cd : string * details => dual_use (snd cd)) d).
  lia.
Qed.

Lemma returned_update_chart f st fig :
  returned (update_chart f) st = Ok fig ->
  add_logos (logos st) (filtered_companies f (companies st)) = Ok (images fig).
Proof.
  unfold returned, update_chart, bind, gets, ret, raise. simpl.
  destruct (add_logos (logos st) (filtered_companies f (companies st)))
    as [imgs|e]; simpl; [|discriminate].
  now intros [= <-].
Qed.

(** X13: the chart has one image for every company of the (filtered)
    quadrants whose logo is there and none for the others; so it never has
    more images than the store has companies. *)
Theorem one_image_per_logo f st fig :
  returned (update_chart f) st = Ok fig ->
  length (images fig) = logo_count (logos st) (filtered_companies f (companies st)) /\
  (length (images fig) <= total_entities (companies st))%nat.
Proof.
  intros Hfig. apply returned_update_chart in Hfig.
  pose proof (length_add_logos _ _ Hfig) as Hlen.
  split; [exact Hlen|]. rewrite Hlen.
  pose proof (logo_count_le (logos st) (filtered_companies f (companies st))).
  pose proof (total_entities_filtered f (companies st)). lia.
Qed.

Lemma positions_anchor q x y :
  pyget q positions = Some (x, y) -> (x = 25 \/ x = 75) /\ (y = 25 \/ y = 75).
Proof.
  simpl.
  repeat match goal with
         | |- (if ?b then _ else _) = _ -> _ => destruct b
         end;
    intros [= <- <-] || discriminate; auto.
Qed.

Lemma filtered_companies_In f cs q d :
  In (q, d) (filtered_companies f cs) ->
  exists d0, In (q, d0) cs /\ (length d <= length d0)%nat /\
             forall cd, In cd d -> In cd d0.
Proof.
  unfold filtered_companies. destruct f.
  - intros Hin. apply in_map_iff in Hin. destruct Hin as ([q0 d0] & E & Hin).
    cbn [fst snd] in E. injection E as <- <-.
    exists d0. split; [exact Hin|]. split; [apply filter_length_le|].
    intros cd Hcd. now apply filter_In in Hcd.
  - intros Hin. exists d. auto.
Qed.

(** X14: every image of the chart is 10 by 10, has its centre in one of the
    three columns of its quadrant (so between 25 and 95) and not above 75;
    and when no quadrant has more than nine companies, its centre is not
    below 5, so the image lies within the 0-100 plane. *)
Theorem images_within_plane f st fig im :
  returned (update_chart f) st = Ok fig ->
  In im (images fig) ->
  sizex im = 10 /\ sizey im = 10 /\
  25 <= img_x im <= 95 /\ img_y im <= 75 /\
  (at_most_per_quadrant 9 (companies st) = true -> 5 <= img_y im).
Proof.
  intros Hfig Hin. apply returned_update_chart in Hfig.
  destruct (@add_logos_inv _ _ _ _ Hfig Hin) as (q & d & x & y & Hq & Hp & Him).
  apply place_logos_inv in Him.
  destruct Him as (i & c & det & Hn & _ & _ & Hx & Hy & Hsx & Hsy).
  destruct (positions_anchor _ Hp) as [Hxa Hya].
  unfold grid_x, grid_y in Hx, Hy. cbn [Nat.add] in Hx, Hy.
  pose proof (Z.mod_pos_bound (Z.of_nat i) 3 ltac:(lia)) as Hm.
  pose proof (Z.div_pos (Z.of_nat i) 3 ltac:(lia) ltac:(lia)) as Hdv.
  split; [exact Hsx|]. split; [exact Hsy|].
  split; [lia|]. split; [lia|].
  intros Hmax.
  destruct (filtered_companies_In _ _ _ _ Hq) as (d0 & Hin0 & Hlen & _).
  unfold at_most_per_quadrant in Hmax. rewrite forallb_forall in Hmax.
  pose proof (Hmax _ Hin0) as H9. cbn [snd] in H9. apply Nat.leb_le in H9.
  assert (Hi : (i < length d)%nat) by (apply nth_error_Some; congruence).
  assert (Z.of_nat i / 3 <= 2).
  { apply Z.lt_succ_r. apply Z.div_lt_upper_bound; lia. }
  lia.
Qed.

(** X15: the grid grows downwards without a check.  The company at index
    [i + 15] of an upper quadrant and the company at index [i] of the
    quadrant below it, both with their logos, have their images centred on
    the same point of the chart. *)
Theorem overflow_reaches_quadrant_below f st fig q_up q_down x d_up d_down
    i c_up det_up logo_up c_down det_down logo_down :
  returned (update_chart f) st = Ok fig ->
  pyget q_up positions = Some (x, 75) ->
  pyget q_down positions = Some (x, 25) ->
  In (q_up, d_up) (filtered_companies f (companies st)) ->
  In (q_down, d_down) (filtered_companies f (companies st)) ->
  nth_error d_up (i + 15) = Some (c_up, det_up) ->
  nth_error d_down i = Some (c_down, det_down) ->
  logos_get c_up (logos st) = Some logo_up -> truthy logo_up = true ->
  logos_get c_down (logos st) = Some logo_down -> truthy logo_down = true ->
  exists px py,
    In {| source := logo_up; img_x := px; img_y := py; sizex := 10; sizey := 10 |}
       (images fig) /\
    In {| source := logo_down; img_x := px; img_y := py; sizex := 10; sizey := 10 |}
       (images fig).
Proof.
  intros Hfig Hpu Hpd Hu Hd Hnu Hnd Hlu Htu Hld Htd.
  apply returned_update_chart in Hfig.
  exists (grid_x x i), (grid_y 25 i). split.
  - eapply add_logos_incl; [exact Hfig|exact Hu|exact Hpu|].
    pose proof (place_logos_in x 75 (logos st) d_up 0 (i + 15) Hnu Hlu Htu) as H.
    cbn [Nat.add] in H.
    replace (grid_x x (i + 15)) with (grid_x x i) in H.
    2:{ unfold grid_x. rewrite Nat2Z.inj_add.
        change (Z.of_nat 15) with (5 * 3). now rewrite Z.mod_add by lia. }
    replace (grid_y 75 (i + 15)) with (grid_y 25 i) in H.
    2:{ unfold grid_y. rewrite Nat2Z.inj_add.
        change (Z.of_nat 15) with (5 * 3). rewrite Z.div_add by lia. lia. }
    exact H.
  - eapply add_logos_incl; [exact Hfig|exact Hd|exact Hpd|].
    exact (place_logos_in x 25 (logos st) d_down 0 i Hnd Hld Htd).
Qed.

Lemma filter_all {A : Type} (p : A -> bool) (l : list A) :
  forallb p l = true -> filter p l = l.
Proof.
  induction l as [|a l IH]; simpl; [reflexivity|].
  intros H. apply andb_prop in H. destruct H as [Ha Hl].
  now rewrite Ha, IH.
Qed.

Lemma filtered_companies_all_dual cs :
  all_dual_use cs = true -> filtered_companies true cs = cs.
Proof.
  unfold filtered_companies, all_dual_use.
  induction cs as [|[q d] cs IH]; cbn [map forallb fst snd]; [reflexivity|].
  intros H. apply andb_prop in H. destruct H as [Hd Hrest].
  now rewrite (IH Hrest), (filter_all _ _ Hd).
Qed.

(** X16: when every company of the store is dual-use, the chart with the
    filter on is the chart with the filter off. *)
Theorem filter_keeps_all_dual_use st :
  all_dual_use (companies st) = true ->
  update_chart true st = update_chart false st.
Proof.
  intros H. unfold update_chart, bind, gets. cbv beta iota.
  now rewrite (filtered_companies_all_dual _ H).
Qed.

(* ------------------------------------------------------------------ *)
(** * The four outputs together *)

Lemma update_output_payload r st p :
  returned (callback r) st = Ok p ->
  exists f,
    returned (update_chart f) (exec (callback r) st) = Ok (out_figure p) /\
    out_company_list p =
      map (fun qd : string * pydict details =>
             (fst qd, company_items (logos (exec (callback r) st)) (snd qd)))
          (companies (exec (callback r) st)).
Proof.
  rewrite exec_update_output.
  unfold returned, exec, update_output, bind.
  destruct (action r st) as [st1 [f|e]]; [|discriminate].
  pose proof (update_chart_reads f st1) as Hc. unfold exec in Hc.
  destruct (update_chart f st1) as [st2 [fig|e]] eqn:Hu; simpl in Hc; subst st2;
    [|discriminate].
  simpl. intros [= <-]. exists f. cbn [out_figure out_company_list fst].
  now rewrite Hu.
Qed.

(** X17: the outputs of one request agree with each other.  The company
    list has the quadrants of the store in order; list and export name the
    same companies under the same quadrants in the same order; every delete
    button carries the name shown beside it, and the image beside it is the
    stored logo; and every image of the chart is the logo of a company that
    the list shows. *)
Theorem payload_views_agree r st p :
  returned (callback r) st = Ok p ->
  map fst (out_company_list p) = pykeys (companies (exec (callback r) st)) /\
  flat_map (fun sec : string * list roster_item =>
              map (fun it => (fst sec, item_name it)) (snd sec))
           (out_company_list p) =
    map (fun row => (Quadrant row, Company row))
        (csv_data (companies (exec (callback r) st))) /\
  (forall sec it,
     In sec (out_company_list p) -> In it (snd sec) ->
     item_index it = item_name it /\
     item_img it = logos_get (item_name it) (logos (exec (callback r) st))) /\
  (forall im,
     In im (images (out_figure p)) ->
     exists sec it,
       In sec (out_company_list p) /\ In it (snd sec) /\
       item_img it = Some (source im)).
Proof.
  intros Hp. destruct (update_output_payload _ _ Hp) as (f & Hfig & ->).
  set (st' := exec (callback r) st) in *.
  split; [|split; [|split]].
  - rewrite map_map. reflexivity.
  - unfold csv_data. induction (companies st') as [|[q d] cs IH];
      cbn [map flat_map fst snd]; [reflexivity|].
    rewrite map_app, IH. f_equal.
    unfold company_items, pykeys. rewrite !map_map. reflexivity.
  - intros sec it Hsec Hit. apply in_map_iff in Hsec.
    destruct Hsec as ([q d] & <- & _). cbn [fst snd] in Hit.
    unfold company_items in Hit. apply in_map_iff in Hit.
    destruct Hit as (c & <- & _). auto.
  - intros im Him. apply returned_update_chart in Hfig.
    destruct (@add_logos_inv _ _ _ _ Hfig Him) as (q & d & x & y & Hq & _ & Hpl).
    apply place_logos_inv in Hpl.
    destruct Hpl as (i & c & det & Hn & Hl & _).
    destruct (filtered_companies_In _ _ _ _ Hq) as (d0 & Hin0 & _ & Hsub).
    exists (q, company_items (logos st') d0),
           {| item_img := logos_get c (logos st'); item_name := c; item_index := c |}.
    split; [|split].
    + apply in_map_iff. exists (q, d0). auto.
    + cbn [snd]. unfold company_items. apply in_map_iff. exists c. split; [reflexivity|].
      apply nth_error_In in Hn. apply Hsub in Hn.
      change c with (fst (c, det)). now apply in_map.
    + exact Hl.
Qed.

(* ------------------------------------------------------------------ *)
(** * Tokens that do not do what the button says *)

Lemma before_dot_has_dot name rest :
  has_dot name = true -> before_dot (String.append name rest) = before_dot name.
Proof.
  induction name as [|c name IH]; cbn [has_dot String.append before_dot];
    [discriminate|].
  destruct (Ascii.eqb c "."%char); [reflexivity|].
  cbn [orb]. intros H. now rewrite IH.
Qed.

Lemma before_dot_delete_prop_id name :
  has_dot name = true ->
  before_dot (delete_prop_id name) = String.append id_open (before_dot name).
Proof.
  intros H. unfold delete_prop_id, delete_button_id.
  rewrite !append_assoc. unfold id_open, dq. simpl.
  now rewrite (before_dot_has_dot _ _ H).
Qed.

(** X18: [split('.')] cuts the token at the first dot of the company name.
    For a company with a dot in its name the text evaluated is the opening
    of the id followed by the name up to that dot; when evaluating that
    text fails, the click on the delete button deletes nothing. *)
Theorem dotted_name_is_not_deleted r st name :
  has_dot name = true ->
  in_triggered_id r = delete_prop_id name ->
  only_delete (delete_prop_id name) = true ->
  py_eval_index (String.append id_open (before_dot name)) = None ->
  before_dot (in_triggered_id r) = String.append id_open (before_dot name) /\
  exec (callback r) st = st.
Proof.
  intros Hdot Hid Ht Hev.
  assert (Hcut : before_dot (in_triggered_id r) = String.append id_open (before_dot name))
    by (rewrite Hid; now apply before_dot_delete_prop_id).
  split; [exact Hcut|].
  apply exec_delete_absent; [now rewrite Hid|].
  intros name' He. rewrite Hcut, Hev in He. discriminate.
Qed.

Lemma prefix_append sub : forall s rest,
  String.prefix sub s = true -> String.prefix sub (String.append s rest) = true.
Proof.
  induction sub as [|a sub IH]; intros s rest;
    [intros _; destruct s; [simpl; destruct rest|]; reflexivity|].
  destruct s as [|b s]; simpl; [discriminate|].
  destruct (Ascii.ascii_dec a b); [|discriminate]. apply IH.
Qed.

Lemma str_in_append_r sub s rest :
  str_in sub s = true -> str_in sub (String.append s rest) = true.
Proof.
  induction s as [|c s IH]; cbn [str_in String.append].
  - destruct (String.prefix sub EmptyString) eqn:P; [|discriminate].
    intros _. destruct sub; [|discriminate]. now destruct rest.
  - destruct (String.prefix sub (String c s)) eqn:P.
    + intros _. change (String c (String.append s rest))
        with (String.append (String c s) rest).
      now rewrite (prefix_append _ _ rest P).
    + intros H. rewrite (IH H).
      now destruct (String.prefix sub (String c (String.append s rest))).
Qed.

Lemma str_in_append_l sub front s :
  str_in sub s = true -> str_in sub (String.append front s) = true.
Proof.
  intros H. induction front as [|c front IH]; cbn [String.append]; [exact H|].
  cbn [str_in]. rewrite IH.
  now destruct (String.prefix sub (String c (String.append front s))).
Qed.

Lemma str_in_delete_prop_id sub name :
  str_in sub name = true -> str_in sub (delete_prop_id name) = true.
Proof.
  intros H. unfold delete_prop_id, delete_button_id.
  apply str_in_append_r, str_in_append_l, str_in_append_r. exact H.
Qed.

Lemma exec_reset r st :
  runs_reset (in_triggered_id r) = true ->
  runs_add (in_triggered_id r) = false ->
  exec (callback r) st = initial_store.
Proof.
  intros Hr Ha. rewrite exec_update_output.
  unfold exec, apply_action, bind, when.
  fold (runs_add (in_triggered_id r)) (runs_delete (in_triggered_id r))
       (runs_reset (in_triggered_id r)).
  rewrite Ha, Hr. unfold ret at 1.
  destruct (when_delete_cases py_eval_index (in_triggered_id r) st) as (st2 & Hd & _).
  unfold when in Hd. now rewrite Hd.
Qed.

(** X19: the blocks are chosen by looking for the button ids anywhere in
    the [prop_id], which for a delete button contains the company name.  A
    click on the delete button of a company whose name contains the id of
    the add button runs the add block as well; for a name that contains the
    id of the reset button (and not that of the add button) it empties the
    whole store, whatever the store held. *)
Theorem button_id_in_name_runs_its_block r st name :
  in_triggered_id r = delete_prop_id name ->
  (str_in "add-company-button" name = true ->
   runs_add (in_triggered_id r) = true /\ runs_delete (in_triggered_id r) = true) /\
  (str_in "reset-graph-button" name = true ->
   runs_add (in_triggered_id r) = false ->
   runs_delete (in_triggered_id r) = true /\
   exec (callback r) st = initial_store).
Proof.
  intros Hid.
  assert (Hdel : runs_delete (in_triggered_id r) = true).
  { rewrite Hid. unfold runs_delete, delete_prop_id, delete_button_id.
    apply str_in_append_r, str_in_append_l, str_in_append_l. reflexivity. }
  split.
  - intros H. split; [|exact Hdel].
    rewrite Hid. unfold runs_add. now apply str_in_delete_prop_id.
  - intros H Ha. split; [exact Hdel|].
    apply exec_reset; [|exact Ha].
    rewrite Hid. unfold runs_reset. now apply str_in_delete_prop_id.
Qed.

Lemma length_pydel {V : Type} k (d d' : pydict V) :
  pydel k d = Some d' -> length d = S (length d').
Proof.
  revert d'. induction d as [|[k0 v0] d IH]; simpl; intros d' Hd; [discriminate|].
  destruct (String.eqb k k0).
  - now injection Hd as <-.
  - destruct (pydel k d) as [r0|]; [|discriminate]. injection Hd as <-.
    simpl. now rewrite (IH r0 eq_refl).
Qed.

Lemma total_entities_delete_company company cs cs' :
  delete_company company cs = Some cs' ->
  total_entities cs = S (total_entities cs').
Proof.
  unfold total_entities.
  revert cs'. induction cs as [|[q d] cs IH]; simpl; intros cs'; [discriminate|].
  destruct (pydel company d) as [d'|] eqn:E.
  - intros [= <-]. simpl. now rewrite (length_pydel _ _ E).
  - destruct (delete_company company cs) as [rest'|]; [|discriminate].
    intros [= <-]. simpl. rewrite (IH rest' eq_refl). lia.
Qed.

(** X20: a deletion takes exactly one entry out of the quadrants, also when
    the company has no logo entry: the [KeyError] of [del logos[...]] is
    caught after the company is gone, and the logos and the logo URLs stay
    as they were. *)
Theorem delete_without_logo_entry r st name :
  only_delete (in_triggered_id r) = true ->
  py_eval_index (before_dot (in_triggered_id r)) = Some name ->
  held name (companies st) = true ->
  pycontains name (logos st) = false ->
  S (total_entities (companies (exec (callback r) st))) = total_entities (companies st) /\
  pykeys (companies (exec (callback r) st)) = pykeys (companies st) /\
  logos (exec (callback r) st) = logos st /\
  logo_urls (exec (callback r) st) = logo_urls st.
Proof.
  intros Ht He Hheld Hlg.
  rewrite exec_update_output, (action_only_delete _ _ _ Ht),
    (exec_handle_delete _ _ _ He).
  destruct (delete_company name (companies st)) as [cs'|] eqn:Hd.
  - cbn [companies logos logo_urls].
    split; [now rewrite (total_entities_delete_company _ _ Hd)|].
    split; [exact (delete_company_keys _ _ Hd)|]. split; [|reflexivity].
    unfold pycontains in Hlg. destruct (pyget name (logos st)) eqn:G; [discriminate|].
    apply pydel_None in G. now rewrite G.
  - apply delete_company_None in Hd. congruence.
Qed.

Lemma nth_error_filter_middle {A : Type} (p : A -> bool) d1 x d2 :
  p x = true ->
  nth_error (filter p (d1 ++ x :: d2)) (length (filter p d1)) = Some x.
Proof.
  intros Hx. rewrite filter_app, nth_error_app2 by lia.
  rewrite Nat.sub_diag. simpl. now rewrite Hx.
Qed.

(** X21: with the filter on, a dual-use company takes the cell whose index
    is the number of dual-use companies listed before it in its quadrant,
    not its index in the store: the companies that are filtered out leave no
    gaps in the grid. *)
Theorem filter_closes_gaps st fig q x y d1 c det d2 logo :
  returned (update_chart true) st = Ok fig ->
  pyget q positions = Some (x, y) ->
  In (q, d1 ++ (c, det) :: d2) (companies st) ->
  dual_use det = true ->
  logos_get c (logos st) = Some logo -> truthy logo = true ->
  In {| source := logo;
        img_x := x + (Z.of_nat (length (filter (fun cd : string * details =>
                                                  dual_use (snd cd)) d1)) mod 3) * 10;
        img_y := y - (Z.of_nat (length (filter (fun cd : string * details =>
                                                  dual_use (snd cd)) d1)) / 3) * 10;
        sizex := 10; sizey := 10 |}
     (images fig).
Proof.
  intros Hfig Hp Hin Hdual Hl Ht. apply returned_update_chart in Hfig.
  set (dual := fun cd : string * details => dual_use (snd cd)).
  eapply add_logos_incl; [exact Hfig| |exact Hp|].
  - unfold filtered_companies. apply in_map_iff.
    exists (q, d1 ++ (c, det) :: d2). split; [reflexivity|exact Hin].
  - cbn [snd]. fold dual.
    exact (place_logos_in x y (logos st) (filter dual (d1 ++ (c, det) :: d2)) 0
             (length (filter dual d1))
             (nth_error_filter_middle dual d1 (c, det) d2 Hdual) Hl Ht).
Qed.

Lemma before_dot_no_dot s rest :
  has_dot s = false ->
  before_dot (String.append s rest) = String.append s (before_dot rest).
Proof.
  induction s as [|c s IH]; cbn [has_dot String.append before_dot]; [reflexivity|].
  destruct (Ascii.eqb c "."%char); [discriminate|].
  cbn [orb]. intros H. now rewrite IH.
Qed.

(** For a company name without a dot, what precedes the first dot of the
    [prop_id] of its delete button is the whole serialised id. *)
Lemma undotted_name_keeps_token name :
  has_dot name = false ->
  before_dot (delete_prop_id name) = delete_button_id name.
Proof.
  intros H. unfold delete_prop_id, delete_button_id.
  rewrite !append_assoc. unfold id_open, dq. simpl.
  rewrite (before_dot_no_dot _ _ H). reflexivity.
Qed.

(** X22: when two quadrants hold the same name, a click on its delete
    button takes it out of one of them only and takes its logo entry away:
    the company is still listed under the other quadrant, now without a
    logo. *)
Theorem delete_leaves_second_holder r st name q1 d1 q2 d2 :
  reach st ->
  only_delete (in_triggered_id r) = true ->
  py_eval_index (before_dot (in_triggered_id r)) = Some name ->
  In (q1, d1) (companies st) -> pycontains name d1 = true ->
  In (q2, d2) (companies st) -> pycontains name d2 = true ->
  q1 <> q2 ->
  held name (companies (exec (callback r) st)) = true /\
  S (total_entities (companies (exec (callback r) st))) = total_entities (companies st) /\
  logos_get name (logos (exec (callback r) st)) = None.
Proof.
  intros Hr Ht He Hin1 Hc1 Hin2 Hc2 Hne.
  destruct (reachable_logos_sound Hr) as (Hnd & _ & _).
  rewrite exec_update_output, (action_only_delete _ _ _ Ht),
    (exec_handle_delete _ _ _ He).
  destruct (delete_company name (companies st)) as [cs'|] eqn:Hd.
  - cbn [companies logos]. split; [|split].
    + destruct (delete_company_shape _ _ Hd)
        as (l1 & q0 & d0 & d0' & l2 & Ecs & -> & _ & _).
      apply held_iff. rewrite Ecs in Hin1, Hin2.
      assert (Hkeep : forall q d, In (q, d) (l1 ++ (q0, d0) :: l2) -> q <> q0 ->
                        In (q, d) (l1 ++ (q0, d0') :: l2)).
      { intros q d Hin Hq. apply in_app_or in Hin. apply in_or_app.
        destruct Hin as [Hin|[E|Hin]]; [now left| |right; now right].
        injection E as -> _. contradiction. }
      destruct (String.eqb_spec q1 q0) as [E1|N1].
      * exists q2, d2. split; [apply Hkeep; congruence|exact Hc2].
      * exists q1, d1. split; [now apply Hkeep|exact Hc1].
    + now rewrite (total_entities_delete_company _ _ Hd).
    + unfold logos_get. destruct (pydel name (logos st)) as [l|] eqn:E.
      * now rewrite (pyget_pydel_same _ _ E Hnd).
      * apply pydel_None in E. now rewrite E.
  - exfalso. apply delete_company_None in Hd.
    assert (held name (companies st) = true); [|congruence].
    apply held_iff. eauto.
Qed.

End MoreCallbackFacts.

(* ------------------------------------------------------------------ *)
(** * The further properties at concrete requests *)

Lemma demo_store3_reachable : reachable no_encoding literal_index demo_store3.
Proof. unfold demo_store3, demo_store. do 2 apply reachable_after. constructor. Qed.

Lemma demo_store3_unique : unique_quadrant (companies demo_store3).
Proof.
  unfold demo_store3, demo_store.
  apply after_unique_quadrant; [reflexivity|].
  apply after_unique_quadrant; [reflexivity|].
  exact unique_quadrant_empty.
Qed.

Lemma moved_store_reachable : reachable no_encoding literal_index moved_store.
Proof. unfold moved_store. apply reachable_after. constructor. Qed.

Lemma reachable_four_quadrants_witness :
  reachable no_encoding literal_index demo_store3 /\
  pykeys (companies demo_store3) =
    ["Visionaries/Innovators"; "Leaders"; "Niche Players"; "Challengers"].
Proof.
  split; [exact demo_store3_reachable|].
  exact (proj1 (@reachable_four_quadrants no_encoding literal_index demo_store3
                  demo_store3_reachable)).
Defined.

Lemma callback_returns_witness :
  add_raises demo_store3 (click_delete "Acme" zeta_leaders) = false /\
  exists p,
    returned (update_output no_encoding literal_index (click_delete "Acme" zeta_leaders))
             demo_store3 = Ok p /\
    out_title p = "Magic Quadrant".
Proof.
  split; [reflexivity|].
  destruct (@callback_returns no_encoding literal_index
              (click_delete "Acme" zeta_leaders) demo_store3
              demo_store3_reachable eq_refl) as (p & Hp & Ht & _).
  exists p. auto.
Defined.

Lemma unknown_quadrant_raises_witness :
  pyget "Visionaries" (companies demo_store3) = None /\
  update_output no_encoding literal_index (click_add acme_visionaries) demo_store3
    = (demo_store3, Raise (KeyError "Visionaries")).
Proof.
  split; [reflexivity|].
  exact (@unknown_quadrant_raises no_encoding literal_index
           (click_add acme_visionaries) demo_store3 "Visionaries"
           eq_refl eq_refl eq_refl eq_refl).
Defined.

Lemma delete_unknown_changes_nothing_witness :
  held "Nova" (companies demo_store3) = false /\
  exec (update_output no_encoding literal_index (click_delete "Nova" idle_request))
       demo_store3 = demo_store3.
Proof.
  split; [reflexivity|].
  apply (@delete_unknown_changes_nothing no_encoding literal_index
           (click_delete "Nova" idle_request) demo_store3
           demo_store3_reachable eq_refl).
  intros name H. vm_compute in H. injection H as <-. reflexivity.
Defined.

Lemma delete_removes_company_witness :
  held "Zeta" (companies demo_store3) = true /\
  held "Zeta"
       (companies (exec (update_output no_encoding literal_index
                           (click_delete "Zeta" idle_request)) demo_store3)) = false.
Proof.
  split; [reflexivity|].
  exact (proj1 (@delete_removes_company no_encoding literal_index
                  (click_delete "Zeta" idle_request) demo_store3 "Zeta"
                  demo_store3_reachable demo_store3_unique eq_refl eq_refl)).
Defined.

Lemma delete_twice_is_delete_once_witness :
  only_delete (in_triggered_id (click_delete "Zeta" idle_request)) = true /\
  run no_encoding literal_index
      [click_delete "Zeta" idle_request; click_delete "Zeta" idle_request] demo_store3
    = run no_encoding literal_index [click_delete "Zeta" idle_request] demo_store3.
Proof.
  split; [reflexivity|].
  exact (@delete_twice_is_delete_once no_encoding literal_index
           (click_delete "Zeta" idle_request) demo_store3 "Zeta"
           demo_store3_reachable demo_store3_unique eq_refl eq_refl).
Defined.

Lemma chart_sources_are_data_urls_witness :
  reachable no_encoding literal_index demo_store3 /\
  truthy "data:image/png;base64,WU9ZTw==" = true.
Proof.
  split; [exact demo_store3_reachable|].
  exact (proj2 (proj1 (@chart_sources_are_data_urls no_encoding literal_index
                         demo_store3 demo_store3_reachable)
                  "Yoyo" "data:image/png;base64,WU9ZTw==" eq_refl)).
Defined.

Lemma logos_belong_to_listed_companies_witness :
  pycontains "Zeta" (logos demo_store3) = true /\
  held "Zeta" (companies demo_store3) = true.
Proof.
  split; [reflexivity|].
  exact (proj1 (@logos_belong_to_listed_companies no_encoding literal_index
                  demo_store3 "Zeta" demo_store3_reachable eq_refl)).
Defined.

Lemma add_stores_company_witness :
  in_http_png (click_add zeta_leaders) "https://zeta.example/none.png" = None /\
  logos_get "Zeta"
    (logos (exec (update_output no_encoding literal_index (click_add zeta_leaders))
                 initial_store)) = None /\
  In {| Company := "Zeta"; Quadrant := "Leaders"; Dual_Use := true |}
     (csv_data (companies
        (exec (update_output no_encoding literal_index (click_add zeta_leaders))
              initial_store))).
Proof.
  split; [reflexivity|].
  destruct (@add_stores_company no_encoding literal_index (click_add zeta_leaders)
              initial_store "Zeta" "Leaders" "https://zeta.example/none.png" []
              eq_refl eq_refl eq_refl eq_refl eq_refl eq_refl)
    as (d' & _ & _ & _ & Hfail & _ & Hrow).
  split; [exact (Hfail eq_refl)|exact Hrow].
Defined.

Lemma add_new_name_goes_last_witness :
  pyget "Yoyo" [("Acme", {| dual_use := false |}); ("Zeta", {| dual_use := true |})]
    = None /\
  pyget "Leaders"
    (companies (exec (update_output no_encoding literal_index (click_add yoyo_leaders))
                     demo_store))
    = Some [("Acme", {| dual_use := false |}); ("Zeta", {| dual_use := true |});
            ("Yoyo", {| dual_use := false |})].
Proof.
  split; [reflexivity|].
  exact (proj1 (@add_new_name_goes_last no_encoding literal_index (click_add yoyo_leaders)
                  demo_store "Yoyo" "Leaders" "https://yoyo.example/logo.png"
                  [("Acme", {| dual_use := false |}); ("Zeta", {| dual_use := true |})]
                  eq_refl eq_refl eq_refl eq_refl eq_refl eq_refl eq_refl)).
Defined.


Lemma delete_closes_gap_witness :
  pyget "Leaders" (companies demo_store3)
    = Some ([("Acme", {| dual_use := false |})]
            ++ ("Zeta", {| dual_use := true |}) :: [("Yoyo", {| dual_use := false |})]) /\
  pyget "Leaders"
    (companies (exec (update_output no_encoding literal_index
                        (click_delete "Zeta" idle_request)) demo_store3))
    = Some [("Acme", {| dual_use := false |}); ("Yoyo", {| dual_use := false |})].
Proof.
  split; [reflexivity|].
  exact (proj1 (@delete_closes_gap no_encoding literal_index
                  (click_delete "Zeta" idle_request) demo_store3 "Zeta" "Leaders"
                  [("Acme", {| dual_use := false |})] {| dual_use := true |}
                  [("Yoyo", {| dual_use := false |})]
                  demo_store3_reachable demo_store3_unique eq_refl eq_refl eq_refl)).
Defined.

Lemma one_image_per_logo_witness :
  exists fig,
    returned (update_chart false) demo_store3 = Ok fig /\
    length (images fig) = 2%nat.
Proof.
  eexists. split; [reflexivity|].
  rewrite (proj1 (@one_image_per_logo false demo_store3 _ eq_refl)).
  reflexivity.
Defined.

Lemma images_within_plane_witness :
  at_most_per_quadrant 9 (companies demo_store3) = true /\
  exists fig im,
    returned (update_chart false) demo_store3 = Ok fig /\
    In im (images fig) /\ 5 <= img_y im <= 75.
Proof.
  split; [reflexivity|].
  eexists. exists {| source := "data:image/png;base64,WU9ZTw==";
                     img_x := 95; img_y := 75; sizex := 10; sizey := 10 |}.
  split; [reflexivity|].
  assert (Hin : In {| source := "data:image/png;base64,WU9ZTw==";
                      img_x := 95; img_y := 75; sizex := 10; sizey := 10 |}
                   (images (match returned (update_chart false) demo_store3 with
                            | Ok fig => fig
                            | Raise _ => {| images := []; annotations := [];
                                            shapes := []; xaxis_range := (0, 0);
                                            yaxis_range := (0, 0) |}
                            end))).
  { vm_compute. right. left. reflexivity. }
  split; [exact Hin|].
  destruct (@images_within_plane false demo_store3 _ _ eq_refl Hin)
    as (_ & _ & _ & Hy & Hlow).
  split; [exact (Hlow eq_refl)|exact Hy].
Defined.

Lemma overflow_reaches_quadrant_below_witness :
  pyget "Leaders" positions = Some (75, 75) /\
  pyget "Challengers" positions = Some (75, 25) /\
  nth_error (map (fun n => (n, {| dual_use := false |})) sixteen_names) (0 + 15)
    = Some ("P", {| dual_use := false |}) /\
  exists fig px py,
    returned (update_chart false) crowded_store = Ok fig /\
    In {| source := "data:image/png;base64,WA==";
          img_x := px; img_y := py; sizex := 10; sizey := 10 |} (images fig) /\
    In {| source := "data:image/png;base64,QkVMT1c=";
          img_x := px; img_y := py; sizex := 10; sizey := 10 |} (images fig).
Proof.
  split; [reflexivity|]. split; [reflexivity|]. split; [reflexivity|].
  assert (Hfig : exists fig, returned (update_chart false) crowded_store = Ok fig)
    by (eexists; vm_compute; reflexivity).
  destruct Hfig as [fig Hfig].
  assert (Hup : In ("Leaders", map (fun n => (n, {| dual_use := false |})) sixteen_names)
                   (filtered_companies false (companies crowded_store)))
    by (vm_compute; right; left; reflexivity).
  assert (Hdown : In ("Challengers", [("Below", {| dual_use := false |})])
                     (filtered_companies false (companies crowded_store)))
    by (vm_compute; right; right; right; left; reflexivity).
  assert (Hlu : logos_get "P" (logos crowded_store) = Some "data:image/png;base64,WA==")
    by (vm_compute; reflexivity).
  assert (Hld : logos_get "Below" (logos crowded_store)
                = Some "data:image/png;base64,QkVMT1c=")
    by (vm_compute; reflexivity).
  destruct (@overflow_reaches_quadrant_below false crowded_store fig
              "Leaders" "Challengers" 75
              (map (fun n => (n, {| dual_use := false |})) sixteen_names)
              [("Below", {| dual_use := false |})]
              0%nat "P" {| dual_use := false |} "data:image/png;base64,WA=="
              "Below" {| dual_use := false |} "data:image/png;base64,QkVMT1c="
              Hfig eq_refl eq_refl Hup Hdown eq_refl eq_refl Hlu eq_refl Hld eq_refl)
    as (px & py & Hiu & Hid).
  exists fig, px, py. split; [exact Hfig|]. split; [exact Hiu|exact Hid].
Defined.

Lemma filter_keeps_all_dual_use_witness :
  all_dual_use (companies (run no_encoding literal_index [click_add dual_leaders]
                               initial_store)) = true /\
  update_chart true (run no_encoding literal_index [click_add dual_leaders] initial_store)
    = update_chart false (run no_encoding literal_index [click_add dual_leaders]
                              initial_store).
Proof.
  split; [reflexivity|].
  exact (@filter_keeps_all_dual_use
           (run no_encoding literal_index [click_add dual_leaders] initial_store)
           eq_refl).
Defined.

Lemma payload_views_agree_witness :
  exists p,
    returned (update_output no_encoding literal_index (click_add yoyo_leaders))
             demo_store = Ok p /\
    map fst (out_company_list p) =
      ["Visionaries/Innovators"; "Leaders"; "Niche Players"; "Challengers"].
Proof.
  eexists. split; [reflexivity|].
  rewrite (proj1 (@payload_views_agree no_encoding literal_index
                    (click_add yoyo_leaders) demo_store _ eq_refl)).
  reflexivity.
Defined.

Lemma dotted_name_is_not_deleted_witness :
  has_dot "Acme Inc." = true /\
  literal_index (String.append id_open (before_dot "Acme Inc.")) = None /\
  held "Acme Inc."
       (companies (run no_encoding literal_index [click_add dotted_leaders]
                       initial_store)) = true /\
  exec (update_output no_encoding literal_index (click_delete "Acme Inc." idle_request))
       (run no_encoding literal_index [click_add dotted_leaders] initial_store)
    = run no_encoding literal_index [click_add dotted_leaders] initial_store.
Proof.
  split; [reflexivity|]. split; [reflexivity|]. split; [reflexivity|].
  exact (proj2 (@dotted_name_is_not_deleted no_encoding literal_index
                  (click_delete "Acme Inc." idle_request)
                  (run no_encoding literal_index [click_add dotted_leaders] initial_store)
                  "Acme Inc." eq_refl eq_refl eq_refl eq_refl)).
Defined.

Lemma button_id_in_name_runs_its_block_witness :
  str_in "reset-graph-button" "my reset-graph-button co" = true /\
  runs_add (delete_prop_id "my reset-graph-button co") = false /\
  exec (update_output no_encoding literal_index
          (click_delete "my reset-graph-button co" zeta_leaders)) demo_store3
    = initial_store.
Proof.
  split; [reflexivity|]. split; [reflexivity|].
  exact (proj2 (proj2 (@button_id_in_name_runs_its_block no_encoding literal_index
                         (click_delete "my reset-graph-button co" zeta_leaders)
                         demo_store3 "my reset-graph-button co" eq_refl)
                  eq_refl eq_refl)).
Defined.

Lemma delete_without_logo_entry_witness :
  held "Acme"
       (companies (run no_encoding literal_index [click_delete "Acme" idle_request]
                       moved_store)) = true /\
  pycontains "Acme"
       (logos (run no_encoding literal_index [click_delete "Acme" idle_request]
                   moved_store)) = false /\
  total_entities
    (companies (exec (update_output no_encoding literal_index
                        (click_delete "Acme" idle_request))
                     (run no_encoding literal_index [click_delete "Acme" idle_request]
                          moved_store))) = 0%nat.
Proof.
  split; [reflexivity|]. split; [reflexivity|].
  pose proof (proj1 (@delete_without_logo_entry no_encoding literal_index
                       (click_delete "Acme" idle_request)
                       (run no_encoding literal_index [click_delete "Acme" idle_request]
                            moved_store)
                       "Acme" eq_refl eq_refl eq_refl eq_refl)) as H.
  change (total_entities
            (companies (run no_encoding literal_index
                            [click_delete "Acme" idle_request] moved_store)))
    with 1%nat in H.
  apply eq_add_S. exact H.
Defined.

Lemma filter_closes_gaps_witness :
  exists fig,
    returned (update_chart true)
             (run no_encoding literal_index [click_add dual_leaders] demo_store) = Ok fig /\
    In {| source := "data:image/png;base64,RFVBTA==";
          img_x := 85; img_y := 75; sizex := 10; sizey := 10 |} (images fig).
Proof.
  eexists. split; [reflexivity|].
  exact (@filter_closes_gaps
           (run no_encoding literal_index [click_add dual_leaders] demo_store) _
           "Leaders" 75 75
           [("Acme", {| dual_use := false |}); ("Zeta", {| dual_use := true |})]
           "Dual" {| dual_use := true |} [] "data:image/png;base64,RFVBTA=="
           eq_refl eq_refl (or_intror (or_introl eq_refl)) eq_refl eq_refl eq_refl).
Defined.

Lemma delete_leaves_second_holder_witness :
  reachable no_encoding literal_index moved_store /\
  held "Acme"
       (companies (exec (update_output no_encoding literal_index
                           (click_delete "Acme" idle_request)) moved_store)) = true /\
  logos_get "Acme"
       (logos (exec (update_output no_encoding literal_index
                       (click_delete "Acme" idle_request)) moved_store)) = None.
Proof.
  split; [exact moved_store_reachable|].
  destruct (@delete_leaves_second_holder no_encoding literal_index
              (click_delete "Acme" idle_request) moved_store "Acme"
              "Leaders" [("Acme", {| dual_use := false |})]
              "Challengers" [("Acme", {| dual_use := false |})]
              moved_store_reachable eq_refl eq_refl
              (or_intror (or_introl eq_refl)) eq_refl
              (or_intror (or_intror (or_intror (or_introl eq_refl)))) eq_refl)
    as (Hheld & _ & Hlogo).
  { discriminate. }
  auto.
Defined.
